(** * vdscript_to_cpf: the VirtualDub script to Cuttermaran project converter

    A shallow embedding of [vdscript_to_cpf_v1.1.0.py] and of
    [older_versions/vdscript_to_cpf_v1.0.0.py], and the properties their
    specification states about them.

    Modelling choices, all of them about the Python runtime the two scripts
    run on and none about the scripts themselves:
    - a [str] is a list of Unicode code points ([N]);
    - a file opened in text mode is seen as the text Python hands to the
      program (decoded, newlines already translated to U+000A); the file
      system is a finite map from paths to such texts;
    - [\d] in a [str] pattern matches every code point of category Nd.  Below
      U+0080 these are exactly [0-9]; the table for the others depends on the
      Unicode version of the interpreter and is a variable of the development;
    - [int] is unbounded ([Z]), and [int()] and [str()] convert numbers of
      any length.  CPython 3.11 and later, among them the interpreter the
      script names, raise [ValueError] beyond a configurable number of digits
      ([int_max_str_digits] below is the default); the model is that of a
      run where the limit is not reached, and the theorems whose point is a
      number say so in their hypotheses. *)

From Stdlib Require Import ZArith NArith List String Ascii Bool Lia.
From Stdlib Require Import DecimalString.
From Stdlib Require DecimalPos.
From stdpp Require Import gmap list.
Import ListNotations.

Local Open Scope Z_scope.

(** ** Python values *)

(** A Python [str]: a sequence of code points. *)
Definition str : Type := list N.

(** A literal of the source, written as a Rocq string. *)
Definition py (s : string) : str := map N_of_ascii (list_ascii_of_string s).
Arguments py s%_string.

(** The two characters a Rocq literal does not spell: the newline the source
    writes [\n] and the double quote inside its single-quoted literals. *)
Definition nl : N := 10%N.
Definition dquote : N := 34%N.

(** [q s] is [s] between double quotes, as in [FileID="0"]. *)
Definition q (s : str) : str := dquote :: s ++ [dquote].

(** [str(n)] for an [int]. *)
Definition str_of_int (n : Z) : str := py (NilZero.string_of_int (Z.to_int n)).

(** [file.readlines()] on a text: the lines in order, each keeping its
    terminating newline; a last line without one is kept too. *)
Fixpoint readlines_from (cur : str) (text : str) : list str :=
  match text with
  | [] => match cur with [] => [] | _ => [cur] end
  | c :: rest =>
      if N.eqb c nl then (cur ++ [c]) :: readlines_from [] rest
      else readlines_from (cur ++ [c]) rest
  end.

Definition readlines (text : str) : list str := readlines_from [] text.

(** ** The world: files and standard output *)

Record world : Type := World {
  files : gmap str str;
  stdout : list str
}.

Inductive exn : Type :=
| FileNotFoundError (path : str)
| ValueError (arg : str).

(** What running a piece of the program leaves: a value or an exception, and
    the world as it is then. *)
Inductive outcome (A : Type) : Type :=
| Returned (a : A) (w : world)
| Raised (e : exn) (w : world).
Arguments Returned {A} a w.
Arguments Raised {A} e w.

Definition io (A : Type) : Type := world -> outcome A.

#[global] Instance io_ret : MRet io := fun A a w => Returned a w.
#[global] Instance io_bind : MBind io := fun A B k m w =>
  match m w with
  | Returned a w' => k a w'
  | Raised e w' => Raised e w'
  end.
Definition raise {A} (e : exn) : io A := fun w => Raised e w.

(** The world a run ends in, whether it returned or raised. *)
Definition final_world {A} (o : outcome A) : world :=
  match o with
  | Returned _ w => w
  | Raised _ w => w
  end.

(** [for x in xs: s = body x s], the loop state threaded through. *)
Fixpoint for_in {A S} (xs : list A) (body : A -> S -> io S) (s : S) : io S :=
  match xs with
  | [] => mret s
  | x :: xs' => s' ← body x s; for_in xs' body s'
  end.

(** [enumerate(xs)]. *)
Fixpoint enumerate_from {A} (i : Z) (xs : list A) : list (Z * A) :=
  match xs with
  | [] => []
  | x :: xs' => (i, x) :: enumerate_from (i + 1) xs'
  end.
Definition enumerate {A} (xs : list A) : list (Z * A) := enumerate_from 0 xs.

(** [os.path.exists(path)]. *)
Definition path_exists (path : str) : io bool :=
  fun w => Returned (bool_decide (is_Some (files w !! path))) w.

(** [open(path, 'r')] followed by reading the whole text. *)
Definition read_text (path : str) : io str :=
  fun w => match files w !! path with
           | Some text => Returned text w
           | None => Raised (FileNotFoundError path) w
           end.

(** [open(path, 'w')]: the file is created, or emptied. *)
Definition open_w (path : str) : io unit :=
  fun w => Returned tt (World (<[path := []]> (files w)) (stdout w)).

(** [file.write(s)] on the file opened at [path]. *)
Definition file_write (path : str) (s : str) : io unit :=
  fun w => Returned tt (World (alter (fun old => old ++ s) path (files w)) (stdout w)).

(** [print(s)]. *)
Definition print (s : str) : io unit :=
  fun w => Returned tt (World (files w) (stdout w ++ [s])).

(** ** The regular expressions the scripts use *)

Section Runtime.

(** The decimal value of a code point of category Nd above U+007F, as the
    interpreter's Unicode tables have it; [None] for any other code point. *)
Variable unicode_decimal : N -> option N.

Definition decimal_value (c : N) : option Z :=
  if (c <? 128)%N then
    if ((48 <=? c) && (c <=? 57))%N then Some (Z.of_N (c - 48)) else None
  else option_map Z.of_N (unicode_decimal c).

(** [\d]. *)
Definition is_decimal (c : N) : bool :=
  match decimal_value c with Some _ => true | None => false end.

(** The pieces a pattern of the scripts is made of: a literal character and
    the group [(\d+)]. *)
Inductive re_item : Type :=
| Lit (c : N)
| DigitsGroup.

(** Greedy [\d+] with backtracking: takes as many digits as it can and gives
    one back at a time while the rest of the pattern fails.  [taken] is what
    has been consumed so far, never empty when [k] is tried. *)
Fixpoint digits_plus {R} (taken : str) (s : str) (k : str -> str -> option R)
  : option R :=
  match s with
  | c :: s' =>
      if is_decimal c then
        match digits_plus (taken ++ [c]) s' k with
        | Some r => Some r
        | None => k (taken ++ [c]) s'
        end
      else None
  | [] => None
  end.

(** [pattern.match(s)]: the pattern is matched at the start of [s] and need
    not reach its end; the result is the list of its groups, first to last. *)
Fixpoint re_match (pattern : list re_item) (s : str) : option (list str) :=
  match pattern with
  | [] => Some []
  | Lit c :: pattern' =>
      match s with
      | c' :: s' => if N.eqb c c' then re_match pattern' s' else None
      | [] => None
      end
  | DigitsGroup :: pattern' =>
      digits_plus [] s
        (fun g rest => option_map (cons g) (re_match pattern' rest))
  end.

(** [match.group(i)], for [i >= 1]. *)
Definition group (m : list str) (i : nat) : str := nth (i - 1) m [].

(** [int(s)] on a non-empty run of decimal digits, the only strings the
    scripts pass to it; on any other string the model raises. *)
Definition int_digits (s : str) : option Z :=
  match s with
  | [] => None
  | _ => fold_left (fun acc c =>
                      match acc, decimal_value c with
                      | Some a, Some d => Some (10 * a + d)
                      | _, _ => None
                      end) s (Some 0)
  end.

Definition int (s : str) : io Z :=
  match int_digits s with
  | Some n => mret n
  | None => raise (ValueError s)
  end.

(** A non-empty run of decimal digits, what [\d+] stands for. *)
Definition decimals (s : str) : Prop :=
  s <> [] /\ Forall (fun c => is_decimal c = true) s.

(** The longest run of decimal digits at the start of [s], and what follows. *)
Fixpoint span_decimals (s : str) : str * str :=
  match s with
  | c :: s' =>
      if is_decimal c then let '(ds, rest) := span_decimals s' in (c :: ds, rest)
      else ([], s)
  | [] => ([], [])
  end.

End Runtime.

(** The statement [VirtualDub.subset.AddRange(<a>,<b>);] as a text. *)
Definition statement (a b : str) : str :=
  py "VirtualDub.subset.AddRange(" ++ a ++ py "," ++ b ++ py ");".

(** ** vdscript_to_cpf_v1.1.0.py *)

Module V110.

(** A cut segment, the dictionary [{"start": ..., "end": ...}]. *)
Record segment : Type := Segment { start : Z; end_ : Z }.

Section Script.

Variable unicode_decimal : N -> option N.

(** [r'VirtualDub\.subset\.AddRange\((\d+),(\d+)\);'] *)
Definition subset_pattern : list re_item :=
  map Lit (py "VirtualDub.subset.AddRange(")
  ++ [DigitsGroup] ++ map Lit (py ",") ++ [DigitsGroup]
  ++ map Lit (py ");").

Definition parse_vdscript (filepath : str) : io (list segment) :=
  text ← read_text filepath;
  let lines := readlines text in
  for_in lines (fun line cut_segments =>
    match re_match unicode_decimal subset_pattern line with
    | Some m =>
        start_frame ← int unicode_decimal (group m 1);
        frame_count ← int unicode_decimal (group m 2);
        let end_frame := start_frame + frame_count - 1 in
        mret (cut_segments ++ [ {| start := start_frame; end_ := end_frame |} ])
    | None => mret cut_segments
    end) [].

Definition write_cpf_file
  (output_filepath video_filepath audio_filepath : str)
  (cut_segments : list segment) : io unit :=
  taken ← path_exists output_filepath;
  if (taken : bool) then
    print (py "Error: The file " ++ output_filepath
           ++ py " already exists. Please choose a different filename or remove the existing file.")
  else
    open_w output_filepath;;
    let file := output_filepath in
    file_write file (py "<?xml version=" ++ q (py "1.0")
                     ++ py " standalone=" ++ q (py "yes") ++ py "?>" ++ [nl]);;
    file_write file (py "<StateData xmlns="
                     ++ q (py "http://cuttermaran.kickme.to/StateData.xsd")
                     ++ py ">" ++ [nl]);;
    file_write file (py "  <usedVideoFiles FileID=" ++ q (py "0")
                     ++ py " FileName=" ++ q video_filepath ++ py " />" ++ [nl]);;
    file_write file (py "  <usedAudioFiles FileID=" ++ q (py "1")
                     ++ py " FileName=" ++ q audio_filepath
                     ++ py " StartDelay=" ++ q (py "0") ++ py " />" ++ [nl]);;
    for_in (enumerate cut_segments) (fun '(i, segment) _ =>
      file_write file (py "  <!-- Segment " ++ str_of_int (i + 1) ++ py " -->" ++ [nl]);;
      file_write file (py "  <CutElements refVideoFile=" ++ q (py "0")
                       ++ py " StartPosition=" ++ q (str_of_int (start segment))
                       ++ py " EndPosition=" ++ q (str_of_int (end_ segment))
                       ++ py ">" ++ [nl]);;
      file_write file (py "    <cutAudioFiles refAudioFile=" ++ q (py "1")
                       ++ py " />" ++ [nl]);;
      file_write file (py "  </CutElements>" ++ [nl])) tt;;
    file_write file (py "  <CurrentFiles refVideoFiles=" ++ q (py "0") ++ py ">" ++ [nl]);;
    file_write file (py "    <currentAudioFiles refAudioFiles=" ++ q (py "1")
                     ++ py " />" ++ [nl]);;
    file_write file (py "  </CurrentFiles>" ++ [nl]);;
    file_write file (py "</StateData>" ++ [nl]);;
    print (py "Cuttermaran project file saved as " ++ output_filepath).

Definition convert_vdscript_to_cpf
  (vdscript_filepath cpf_filepath video_filepath audio_filepath : str) : io unit :=
  cut_segments ← parse_vdscript vdscript_filepath;
  write_cpf_file cpf_filepath video_filepath audio_filepath cut_segments.

(** The values of the usage example at the end of the script. *)
Definition vdscript_filepath : str := py "C:\New folder\test.vdscript".
Definition cpf_filepath : str := py "C:\New folder\output.cpf".
Definition video_filepath : str := py "C:\New folder\test.m2v".
Definition audio_filepath : str := py "C:\New folder\test.mp2".

Definition main : io unit :=
  convert_vdscript_to_cpf vdscript_filepath cpf_filepath
    video_filepath audio_filepath.

(** *** What the two functions compute, spelled out

    The definitions below are not in the source: they name what one
    iteration of the parsing loop contributes and what the writer's calls of
    [file.write] add up to, so that the theorems can speak of them. *)

(** The start and the count of a line the pattern matches. *)
Definition line_range (line : str) : option (Z * Z) :=
  m ← re_match unicode_decimal subset_pattern line;
  start_frame ← int_digits unicode_decimal (group m 1);
  frame_count ← int_digits unicode_decimal (group m 2);
  Some (start_frame, frame_count).

(** The segment one line contributes, if any. *)
Definition line_segment (line : str) : option segment :=
  '(start_frame, frame_count) ← line_range line;
  Some {| start := start_frame; end_ := start_frame + frame_count - 1 |}.

(** The four lines written before the loop. *)
Definition xml_declaration : str :=
  py "<?xml version=" ++ q (py "1.0") ++ py " standalone=" ++ q (py "yes")
  ++ py "?>" ++ [nl].
Definition root_open : str :=
  py "<StateData xmlns=" ++ q (py "http://cuttermaran.kickme.to/StateData.xsd")
  ++ py ">" ++ [nl].
Definition used_video_file (video_filepath : str) : str :=
  py "  <usedVideoFiles FileID=" ++ q (py "0") ++ py " FileName="
  ++ q video_filepath ++ py " />" ++ [nl].
Definition used_audio_file (audio_filepath : str) : str :=
  py "  <usedAudioFiles FileID=" ++ q (py "1") ++ py " FileName="
  ++ q audio_filepath ++ py " StartDelay=" ++ q (py "0") ++ py " />" ++ [nl].

(** One iteration of the loop: the comment, then the cut element. *)
Definition segment_comment (i : Z) : str :=
  py "  <!-- Segment " ++ str_of_int (i + 1) ++ py " -->" ++ [nl].
Definition cut_element (seg : segment) : str :=
  (py "  <CutElements refVideoFile=" ++ q (py "0")
   ++ py " StartPosition=" ++ q (str_of_int (start seg))
   ++ py " EndPosition=" ++ q (str_of_int (end_ seg)) ++ py ">" ++ [nl])
  ++ (py "    <cutAudioFiles refAudioFile=" ++ q (py "1") ++ py " />" ++ [nl])
  ++ (py "  </CutElements>" ++ [nl]).

(** The blocks of the segments, the first of them numbered [i + 1]. *)
Definition cut_blocks (i : Z) (segs : list segment) : str :=
  concat (map (fun '(i, seg) => segment_comment i ++ cut_element seg)
              (enumerate_from i segs)).

(** The four lines written after the loop. *)
Definition current_files : str :=
  (py "  <CurrentFiles refVideoFiles=" ++ q (py "0") ++ py ">" ++ [nl])
  ++ (py "    <currentAudioFiles refAudioFiles=" ++ q (py "1") ++ py " />" ++ [nl])
  ++ (py "  </CurrentFiles>" ++ [nl]).
Definition root_close : str := py "</StateData>" ++ [nl].

Definition cpf_document (video_filepath audio_filepath : str)
  (cut_segments : list segment) : str :=
  xml_declaration ++ root_open
  ++ used_video_file video_filepath ++ used_audio_file audio_filepath
  ++ cut_blocks 0 cut_segments
  ++ current_files ++ root_close.

(** The two messages [write_cpf_file] prints. *)
Definition already_exists_message (output_filepath : str) : str :=
  py "Error: The file " ++ output_filepath
  ++ py " already exists. Please choose a different filename or remove the existing file.".
Definition saved_message (output_filepath : str) : str :=
  py "Cuttermaran project file saved as " ++ output_filepath.

End Script.
End V110.

(** ** older_versions/vdscript_to_cpf_v1.0.0.py: the extractor *)

Module V100.

(** A cut segment, the dictionary
    [{"StartPosition": ..., "EndPosition": ...}]. *)
Record segment : Type := Segment { StartPosition : Z; EndPosition : Z }.

Section Script.

Variable unicode_decimal : N -> option N.

(** [r'VirtualDub\.subset\.AddRange\((\d+),(\d+)\);'] *)
Definition subset_pattern : list re_item :=
  map Lit (py "VirtualDub.subset.AddRange(")
  ++ [DigitsGroup] ++ map Lit (py ",") ++ [DigitsGroup]
  ++ map Lit (py ");").

Definition parse_vdscript (filepath : str) : io (list segment) :=
  text ← read_text filepath;
  let lines := readlines text in
  for_in lines (fun line cut_segments =>
    match re_match unicode_decimal subset_pattern line with
    | Some m =>
        start_frame ← int unicode_decimal (group m 1);
        frame_count ← int unicode_decimal (group m 2);
        let end_frame := start_frame + frame_count in
        mret (cut_segments
              ++ [ {| StartPosition := start_frame; EndPosition := end_frame |} ])
    | None => mret cut_segments
    end) [].

(** The start and the count of a line the pattern matches, and the segment
    the line contributes (not in the source, see above). *)
Definition line_range (line : str) : option (Z * Z) :=
  m ← re_match unicode_decimal subset_pattern line;
  start_frame ← int_digits unicode_decimal (group m 1);
  frame_count ← int_digits unicode_decimal (group m 2);
  Some (start_frame, frame_count).

Definition line_segment (line : str) : option segment :=
  '(start_frame, frame_count) ← line_range line;
  Some {| StartPosition := start_frame;
          EndPosition := start_frame + frame_count |}.

Definition write_cpf_file
  (output_filepath video_filepath audio_filepath : str)
  (cut_segments : list segment) : io unit :=
  taken ← path_exists output_filepath;
  if (taken : bool) then
    print (py "Error: The file " ++ output_filepath
           ++ py " already exists. Please choose a different filename or remove the existing file.")
  else
    open_w output_filepath;;
    let file := output_filepath in
    file_write file (py "<?xml version=" ++ q (py "1.0")
                     ++ py " standalone=" ++ q (py "yes") ++ py "?>" ++ [nl]);;
    file_write file (py "<StateData xmlns="
                     ++ q (py "http://cuttermaran.kickme.to/StateData.xsd")
                     ++ py ">" ++ [nl]);;
    file_write file (py "  <usedVideoFiles FileID=" ++ q (py "0")
                     ++ py " FileName=" ++ q video_filepath ++ py " />" ++ [nl]);;
    file_write file (py "  <usedAudioFiles FileID=" ++ q (py "1")
                     ++ py " FileName=" ++ q audio_filepath
                     ++ py " StartDelay=" ++ q (py "0") ++ py " />" ++ [nl]);;
    for_in cut_segments (fun segment _ =>
      file_write file (py "  <CutElements refVideoFile=" ++ q (py "0")
                       ++ py " StartPosition=" ++ q (str_of_int (StartPosition segment))
                       ++ py " EndPosition=" ++ q (str_of_int (EndPosition segment))
                       ++ py ">" ++ [nl]);;
      file_write file (py "    <cutAudioFiles refAudioFile=" ++ q (py "1")
                       ++ py " />" ++ [nl]);;
      file_write file (py "  </CutElements>" ++ [nl])) tt;;
    file_write file (py "  <CurrentFiles refVideoFiles=" ++ q (py "0") ++ py ">" ++ [nl]);;
    file_write file (py "    <currentAudioFiles refAudioFiles=" ++ q (py "1")
                     ++ py " />" ++ [nl]);;
    file_write file (py "  </CurrentFiles>" ++ [nl]);;
    file_write file (py "</StateData>" ++ [nl]);;
    print (py "Cuttermaran project file saved as " ++ output_filepath).

Definition convert_vdscript_to_cpf
  (vdscript_filepath cpf_filepath video_filepath audio_filepath : str) : io unit :=
  cut_segments ← parse_vdscript vdscript_filepath;
  write_cpf_file cpf_filepath video_filepath audio_filepath cut_segments.

(** What the writer's calls of [file.write] add up to (not in the source):
    the lines around the loop are those of v1.1.0, the loop writes the cut
    elements without a comment. *)
Definition cut_element (seg : segment) : str :=
  (py "  <CutElements refVideoFile=" ++ q (py "0")
   ++ py " StartPosition=" ++ q (str_of_int (StartPosition seg))
   ++ py " EndPosition=" ++ q (str_of_int (EndPosition seg)) ++ py ">" ++ [nl])
  ++ (py "    <cutAudioFiles refAudioFile=" ++ q (py "1") ++ py " />" ++ [nl])
  ++ (py "  </CutElements>" ++ [nl]).

Definition cpf_document (video_filepath audio_filepath : str)
  (cut_segments : list segment) : str :=
  V110.xml_declaration ++ V110.root_open
  ++ V110.used_video_file video_filepath ++ V110.used_audio_file audio_filepath
  ++ concat (map cut_element cut_segments)
  ++ V110.current_files ++ V110.root_close.

End Script.
End V100.

(** A fragment of the Unicode table, for examples: the Arabic-Indic digits
    U+0660 to U+0669. *)
Definition arabic_indic (c : N) : option N :=
  if ((1632 <=? c) && (c <=? 1641))%N then Some (c - 1632)%N else None.


(** The most digits [int()] reads and [str()] writes before they raise
    [ValueError], by default, where the interpreter has such a limit
    ([sys.int_info.default_max_str_digits]). *)
Definition int_max_str_digits : nat := 4300.

(** [str(n)] stays within the limit: [n] has at most that many digits. *)
Definition str_within_limit (n : Z) : Prop :=
  Z.abs n < 10 ^ Z.of_nat int_max_str_digits.

Section Numbers.

Variable unicode_decimal : N -> option N.

(** The number a run of decimal digits spells, place by place: every digit
    counts for its value times the power of ten of its place.  This is the
    reading of the specification, set against what [int] computes. *)
Definition digit_value (c : N) : Z :=
  match decimal_value unicode_decimal c with Some d => d | None => 0 end.

Fixpoint run_value (s : str) : Z :=
  match s with
  | [] => 0
  | c :: s' => digit_value c * 10 ^ Z.of_nat (length s') + run_value s'
  end.

(** Every number the pattern finds on the line is one [int()] reads within
    the limit. *)
Definition numbers_within_limit (line : str) : Prop :=
  forall m,
    re_match unicode_decimal V110.subset_pattern line = Some m ->
    Forall (fun number => (length number <= int_max_str_digits)%nat) m.

(** No statement starts in [line] before the place [n]: a statement found at
    [n] is the first statement of the line. *)
Definition no_statement_before (line : str) (n : nat) : Prop :=
  forall before a b rest,
    decimals unicode_decimal a -> decimals unicode_decimal b ->
    line = before ++ statement a b ++ rest ->
    (n <= length before)%nat.

End Numbers.

(** Closes a goal [numbers_within_limit t line] on a literal [line]. *)
Ltac run_within_limit :=
  let m := fresh "m" in
  let Hm := fresh "Hm" in
  intros m Hm; vm_compute in Hm;
  first [ discriminate Hm
        | injection Hm as <-;
          repeat (constructor; [vm_compute; lia|]); constructor ].

(** Closes a goal [decimals t s] on a literal [s]. *)
Ltac run_digits :=
  split; [discriminate | repeat (constructor; try reflexivity)].

(** * Properties *)

(** ** Running the monad *)

Lemma io_bind_run {A B} (m : io A) (k : A -> io B) w :
  (m ≫= k) w = match m w with
               | Returned a w' => k a w'
               | Raised e w' => Raised e w'
               end.
Proof. reflexivity. Qed.

(** A loop whose body neither raises nor touches the world is a fold. *)
Lemma for_in_pure {A S} (body : A -> S -> io S) (step : S -> A -> S) :
  (forall x s w, body x s w = Returned (step s x) w) ->
  forall xs s w, for_in xs body s w = Returned (fold_left step xs s) w.
Proof.
  intros Hbody. induction xs as [|x xs IH]; intros s w; simpl.
  - reflexivity.
  - rewrite io_bind_run, Hbody. apply IH.
Qed.

Lemma fold_left_option_list {A B} (f : A -> option B) xs acc :
  fold_left (fun acc x => acc ++ option_list (f x)) xs acc = acc ++ omap f xs.
Proof.
  revert acc. induction xs as [|x xs IH]; intros acc; simpl.
  - rewrite app_nil_r. reflexivity.
  - rewrite IH. destruct (f x); simpl.
    + rewrite <- app_assoc. reflexivity.
    + rewrite app_nil_r. reflexivity.
Qed.

(** ** The runtime: digits, patterns, lines *)

Section RuntimeFacts.

Variable unicode_decimal : N -> option N.

Local Notation "'is_dec'" := (is_decimal unicode_decimal).
Local Notation "'dec_value'" := (decimal_value unicode_decimal).

Lemma is_decimal_value c :
  is_dec c = true <-> exists d, dec_value c = Some d /\ 0 <= d.
Proof.
  unfold is_decimal, decimal_value.
  destruct (c <? 128)%N.
  - destruct ((48 <=? c) && (c <=? 57))%N; split; try discriminate.
    + intros _. eexists; split; [reflexivity | lia].
    + reflexivity.
    + intros (d & Hd & _); discriminate.
  - destruct (unicode_decimal c) as [v|]; simpl; split; try discriminate.
    + intros _. exists (Z.of_N v). split; [reflexivity | lia].
    + reflexivity.
    + intros (d & Hd & _); discriminate.
Qed.

(** Below U+0080 the decimal digits are the ten of ASCII. *)
Lemma is_decimal_ascii c :
  (c < 128)%N -> is_dec c = ((48 <=? c) && (c <=? 57))%N.
Proof.
  intros Hc. unfold is_decimal, decimal_value.
  apply N.ltb_lt in Hc. rewrite Hc.
  destruct ((48 <=? c) && (c <=? 57))%N; reflexivity.
Qed.

Lemma not_decimal_ascii c :
  (c < 48)%N \/ (57 < c < 128)%N -> is_dec c = false.
Proof.
  intros Hc. rewrite is_decimal_ascii by lia.
  apply andb_false_iff. rewrite !N.leb_gt. lia.
Qed.

Lemma span_decimals_spec s ds rest :
  span_decimals unicode_decimal s = (ds, rest) ->
  s = ds ++ rest /\ Forall (fun c => is_dec c = true) ds.
Proof.
  revert ds rest. induction s as [|c s IH]; intros ds rest; simpl.
  - intros [= <- <-]. split; [reflexivity | constructor].
  - destruct (is_dec c) eqn:Hc.
    + destruct (span_decimals unicode_decimal s) as [ds' rest'].
      intros [= <- <-]. destruct (IH _ _ eq_refl) as [-> Hds].
      split; [reflexivity | constructor; assumption].
    + intros [= <- <-]. split; [reflexivity | constructor].
Qed.

(** A run of digits followed by something that is not a digit is what
    [span_decimals] splits off. *)
Lemma span_decimals_run ds rest :
  Forall (fun c => is_dec c = true) ds ->
  match rest with [] => True | c :: _ => is_dec c = false end ->
  span_decimals unicode_decimal (ds ++ rest) = (ds, rest).
Proof.
  intros Hds Hrest. induction Hds as [|c ds Hc _ IH]; simpl.
  - destruct rest as [|c r]; [reflexivity | simpl; rewrite Hrest; reflexivity].
  - rewrite Hc, IH. reflexivity.
Qed.

(** When what follows [\d+] in the pattern cannot start on a digit, giving
    digits back never helps: the group is the longest run of digits. *)
Lemma digits_plus_greedy {R} (k : str -> str -> option R) taken s :
  (forall g c r, is_dec c = true -> k g (c :: r) = None) ->
  digits_plus unicode_decimal taken s k =
    match span_decimals unicode_decimal s with
    | ([], _) => None
    | (ds, rest) => k (taken ++ ds) rest
    end.
Proof.
  intros Hk. revert taken. induction s as [|c s IH]; intros taken; simpl.
  - reflexivity.
  - destruct (is_dec c) eqn:Hc; [|reflexivity].
    rewrite IH.
    destruct (span_decimals unicode_decimal s) as [ds rest] eqn:Hspan.
    apply span_decimals_spec in Hspan as [-> Hds].
    destruct ds as [|d ds]; simpl.
    + reflexivity.
    + rewrite <- app_assoc. simpl.
      destruct (k (taken ++ c :: d :: ds) rest) eqn:Hres; [reflexivity|].
      apply Hk. inversion Hds; assumption.
Qed.

Lemma re_match_lit c pattern s :
  re_match unicode_decimal (Lit c :: pattern) (c :: s)
  = re_match unicode_decimal pattern s.
Proof. simpl. rewrite N.eqb_refl. reflexivity. Qed.

Lemma re_match_lit_inv c pattern s m :
  re_match unicode_decimal (Lit c :: pattern) s = Some m ->
  exists s', s = c :: s' /\ re_match unicode_decimal pattern s' = Some m.
Proof.
  destruct s as [|c' s]; simpl; [discriminate|].
  destruct (N.eqb c c') eqn:E; [|discriminate].
  apply N.eqb_eq in E as <-. intros H. exists s. split; [reflexivity | exact H].
Qed.

Lemma re_match_literal l pattern s :
  re_match unicode_decimal (map Lit l ++ pattern) (l ++ s)
  = re_match unicode_decimal pattern s.
Proof.
  induction l as [|c l IH]; simpl; [reflexivity|].
  rewrite N.eqb_refl. exact IH.
Qed.

Lemma re_match_literal_inv l pattern s m :
  re_match unicode_decimal (map Lit l ++ pattern) s = Some m ->
  exists s', s = l ++ s' /\ re_match unicode_decimal pattern s' = Some m.
Proof.
  revert s. induction l as [|c l IH]; intros s; simpl.
  - intros H. exists s. split; [reflexivity | exact H].
  - destruct s as [|c' s]; [discriminate|].
    destruct (N.eqb c c') eqn:Hcc; [|discriminate].
    apply N.eqb_eq in Hcc as <-.
    intros H. destruct (IH _ H) as (s' & -> & Hm).
    exists s'. split; [reflexivity | exact Hm].
Qed.

(** The group [(\d+)] followed by a literal that is not a digit. *)
Lemma re_match_digits_group c pattern s :
  is_dec c = false ->
  re_match unicode_decimal (DigitsGroup :: Lit c :: pattern) s =
    match span_decimals unicode_decimal s with
    | ([], _) => None
    | (ds, rest) =>
        option_map (cons ds) (re_match unicode_decimal (Lit c :: pattern) rest)
    end.
Proof.
  intros Hc. cbn [re_match].
  rewrite digits_plus_greedy.
  - destruct (span_decimals unicode_decimal s) as [[|d ds] rest]; reflexivity.
  - intros g c' r Hc'. cbn [re_match].
    destruct (N.eqb c c') eqn:E; [|reflexivity].
    apply N.eqb_eq in E. congruence.
Qed.

(** [int] of a run of digits is a natural number. *)
Lemma int_digits_fold s acc :
  0 <= acc -> Forall (fun c => is_dec c = true) s ->
  exists n, 0 <= n /\
    fold_left (fun acc c =>
                 match acc, dec_value c with
                 | Some a, Some d => Some (10 * a + d)
                 | _, _ => None
                 end) s (Some acc) = Some n.
Proof.
  intros Hacc Hs. revert acc Hacc.
  induction Hs as [|c s Hc _ IH]; intros acc Hacc; simpl.
  - exists acc. split; [assumption | reflexivity].
  - apply is_decimal_value in Hc as (d & -> & Hd).
    apply IH. lia.
Qed.

Lemma int_digits_decimals s :
  decimals unicode_decimal s ->
  exists n, int_digits unicode_decimal s = Some n /\ 0 <= n.
Proof.
  intros [Hne Hs]. unfold int_digits.
  destruct s as [|c s]; [congruence|].
  destruct (int_digits_fold (c :: s) 0 ltac:(lia) Hs) as (n & Hn & ->).
  exists n. split; [reflexivity | assumption].
Qed.

(** A line is the text up to and including the next newline. *)
Lemma readlines_from_line cur l rest :
  Forall (fun c => c <> nl) l ->
  readlines_from cur (l ++ nl :: rest)
  = (cur ++ l ++ [nl]) :: readlines_from [] rest.
Proof.
  intros Hl. revert cur. induction Hl as [|c l Hc _ IH]; intros cur; simpl.
  - reflexivity.
  - destruct (N.eqb c nl) eqn:E; [apply N.eqb_eq in E; contradiction|].
    rewrite IH, <- app_assoc. reflexivity.
Qed.

End RuntimeFacts.

(** ** The pattern of the two scripts *)

Section PatternFacts.

Variable unicode_decimal : N -> option N.

Local Notation "'is_dec'" := (is_decimal unicode_decimal).
Local Notation "'digits'" := (decimals unicode_decimal).
Local Notation "'subset_match'" :=
  (re_match unicode_decimal V110.subset_pattern).

(** The two versions compile the same pattern. *)
Lemma subset_pattern_same : V100.subset_pattern = V110.subset_pattern.
Proof. reflexivity. Qed.

(** The line starts with a statement: the match succeeds, whatever follows. *)
Lemma subset_match_statement a b rest :
  digits a -> digits b -> subset_match (statement a b ++ rest) = Some [a; b].
Proof.
  intros [Ha Hda] [Hb Hdb].
  unfold statement, V110.subset_pattern.
  rewrite <- !app_assoc, re_match_literal.
  change ([DigitsGroup] ++ map Lit (py ",") ++ [DigitsGroup] ++ map Lit (py ");"))
    with (DigitsGroup :: Lit 44%N :: DigitsGroup :: Lit 41%N :: map Lit (py ";") ++ []).
  change (py "," ++ b ++ py ");" ++ rest) with (44%N :: b ++ 41%N :: py ";" ++ rest).
  rewrite re_match_digits_group by (apply not_decimal_ascii; lia).
  rewrite span_decimals_run;
    [| assumption | apply not_decimal_ascii; lia].
  destruct a as [|a0 a]; [congruence|].
  rewrite re_match_lit.
  rewrite re_match_digits_group by (apply not_decimal_ascii; lia).
  rewrite span_decimals_run;
    [| assumption | apply not_decimal_ascii; lia].
  destruct b as [|b0 b]; [congruence|].
  rewrite re_match_lit, re_match_literal. reflexivity.
Qed.

(** The match succeeds: the line starts with a statement, and the groups are
    its two runs of digits. *)
Lemma subset_match_inv line m :
  subset_match line = Some m ->
  exists a b rest,
    digits a /\ digits b /\ line = statement a b ++ rest /\ m = [a; b].
Proof.
  unfold V110.subset_pattern. intros H.
  apply re_match_literal_inv in H as (s1 & -> & H).
  change ([DigitsGroup] ++ map Lit (py ",") ++ [DigitsGroup] ++ map Lit (py ");"))
    with (DigitsGroup :: Lit 44%N :: DigitsGroup :: Lit 41%N :: map Lit (py ";") ++ [])
    in H.
  rewrite re_match_digits_group in H by (apply not_decimal_ascii; lia).
  destruct (span_decimals unicode_decimal s1) as [a s2] eqn:Ha.
  apply span_decimals_spec in Ha as [-> Hda].
  destruct a as [|a0 a]; [discriminate|].
  destruct (re_match unicode_decimal _ s2) as [m1|] eqn:H1; [|discriminate].
  injection H as <-.
  apply re_match_lit_inv in H1 as (s3 & -> & H1).
  rewrite re_match_digits_group in H1 by (apply not_decimal_ascii; lia).
  destruct (span_decimals unicode_decimal s3) as [b s4] eqn:Hb.
  apply span_decimals_spec in Hb as [-> Hdb].
  destruct b as [|b0 b]; [discriminate|].
  destruct (re_match unicode_decimal _ s4) as [m2|] eqn:H2; [|discriminate].
  injection H1 as <-.
  apply re_match_lit_inv in H2 as (s5 & -> & H2).
  apply re_match_literal_inv in H2 as (s6 & -> & H2).
  injection H2 as <-.
  exists (a0 :: a), (b0 :: b), s6.
  split; [split; [discriminate | assumption]|].
  split; [split; [discriminate | assumption]|].
  split; [|reflexivity].
  unfold statement. rewrite <- !app_assoc. reflexivity.
Qed.

End PatternFacts.

(** ** The extractors *)

Section ExtractorFacts.

Variable unicode_decimal : N -> option N.

Local Notation "'digits'" := (decimals unicode_decimal).
Local Notation "'int_of'" := (int_digits unicode_decimal).
Local Notation "'subset_match'" :=
  (re_match unicode_decimal V110.subset_pattern).

Lemma line_range_same line :
  V100.line_range unicode_decimal line = V110.line_range unicode_decimal line.
Proof. reflexivity. Qed.

(** A line that starts with a statement has the range the statement spells. *)
Lemma line_range_statement a b rest :
  digits a -> digits b ->
  exists s c,
    int_of a = Some s /\ int_of b = Some c /\ 0 <= s /\ 0 <= c /\
    V110.line_range unicode_decimal (statement a b ++ rest) = Some (s, c).
Proof.
  intros Ha Hb.
  destruct (int_digits_decimals _ _ Ha) as (s & Hs & Hs0).
  destruct (int_digits_decimals _ _ Hb) as (c & Hc & Hc0).
  exists s, c. repeat split; try assumption.
  unfold V110.line_range.
  rewrite subset_match_statement by assumption.
  simpl. unfold group. simpl. rewrite Hs. simpl. rewrite Hc. reflexivity.
Qed.

(** The converse: a line has a range only if it starts with a statement. *)
Lemma line_range_inv line s c :
  V110.line_range unicode_decimal line = Some (s, c) ->
  exists a b rest,
    digits a /\ digits b /\ line = statement a b ++ rest /\
    int_of a = Some s /\ int_of b = Some c /\ 0 <= s /\ 0 <= c.
Proof.
  unfold V110.line_range. intros H.
  destruct (subset_match line) as [m|] eqn:Hm; [|discriminate].
  apply subset_match_inv in Hm as (a & b & rest & Ha & Hb & -> & ->).
  destruct (int_digits_decimals _ _ Ha) as (s' & Hs & Hs0).
  destruct (int_digits_decimals _ _ Hb) as (c' & Hc & Hc0).
  simpl in H. unfold group in H. simpl in H.
  rewrite Hs in H. simpl in H. rewrite Hc in H. simpl in H.
  injection H as <- <-.
  exists a, b, rest. repeat split; try assumption; apply Ha || apply Hb.
Qed.

(** [int] never raises on the groups of a match: a line has no range exactly
    when the pattern does not match it. *)
Lemma line_range_None line :
  V110.line_range unicode_decimal line = None <-> subset_match line = None.
Proof.
  split.
  - intros H. destruct (subset_match line) as [m|] eqn:Hm; [|reflexivity].
    apply subset_match_inv in Hm as (a & b & rest & Ha & Hb & -> & ->).
    destruct (line_range_statement a b rest Ha Hb) as (s & c & _ & _ & _ & _ & E).
    congruence.
  - intros H. unfold V110.line_range. rewrite H. reflexivity.
Qed.

Lemma line_segment_None line :
  V110.line_segment unicode_decimal line = None <-> subset_match line = None.
Proof.
  rewrite <- line_range_None. unfold V110.line_segment.
  destruct (V110.line_range unicode_decimal line) as [[s c]|]; simpl;
    split; congruence.
Qed.

(** One iteration of the loop of v1.1.0. *)
Lemma parse_step_v110 line (cut_segments : list V110.segment) w :
  match subset_match line with
  | Some m =>
      start_frame ← int unicode_decimal (group m 1);
      frame_count ← int unicode_decimal (group m 2);
      let end_frame := start_frame + frame_count - 1 in
      mret (cut_segments
            ++ [ {| V110.start := start_frame; V110.end_ := end_frame |} ])
  | None => mret cut_segments
  end w
  = Returned (cut_segments
              ++ option_list (V110.line_segment unicode_decimal line)) w.
Proof.
  unfold V110.line_segment, V110.line_range.
  destruct (subset_match line) as [m|] eqn:Hm.
  - apply subset_match_inv in Hm as (a & b & rest & Ha & Hb & -> & ->).
    destruct (int_digits_decimals _ _ Ha) as (s & Hs & _).
    destruct (int_digits_decimals _ _ Hb) as (c & Hc & _).
    unfold group, int. simpl. rewrite Hs, Hc. reflexivity.
  - simpl. rewrite app_nil_r. reflexivity.
Qed.

(** The extractor of v1.1.0 returns, in the order of the lines, the segment
    of every line that has one; it raises only if the file is missing. *)
Lemma parse_vdscript_v110_spec filepath text w :
  files w !! filepath = Some text ->
  V110.parse_vdscript unicode_decimal filepath w
  = Returned (omap (V110.line_segment unicode_decimal) (readlines text)) w.
Proof.
  intros Hfile. unfold V110.parse_vdscript.
  rewrite io_bind_run. unfold read_text. rewrite Hfile.
  rewrite (for_in_pure _
             (fun acc line =>
                acc ++ option_list (V110.line_segment unicode_decimal line))).
  - rewrite fold_left_option_list. reflexivity.
  - intros line acc w'. apply parse_step_v110.
Qed.

Lemma parse_vdscript_v110_missing filepath w :
  files w !! filepath = None ->
  V110.parse_vdscript unicode_decimal filepath w
  = Raised (FileNotFoundError filepath) w.
Proof.
  intros Hfile. unfold V110.parse_vdscript.
  rewrite io_bind_run. unfold read_text. rewrite Hfile. reflexivity.
Qed.

(** One iteration of the loop of v1.0.0. *)
Lemma parse_step_v100 line (cut_segments : list V100.segment) w :
  match re_match unicode_decimal V100.subset_pattern line with
  | Some m =>
      start_frame ← int unicode_decimal (group m 1);
      frame_count ← int unicode_decimal (group m 2);
      let end_frame := start_frame + frame_count in
      mret (cut_segments
            ++ [ {| V100.StartPosition := start_frame;
                    V100.EndPosition := end_frame |} ])
  | None => mret cut_segments
  end w
  = Returned (cut_segments
              ++ option_list (V100.line_segment unicode_decimal line)) w.
Proof.
  unfold V100.line_segment, V100.line_range.
  rewrite subset_pattern_same.
  destruct (subset_match line) as [m|] eqn:Hm.
  - apply subset_match_inv in Hm as (a & b & rest & Ha & Hb & -> & ->).
    destruct (int_digits_decimals _ _ Ha) as (s & Hs & _).
    destruct (int_digits_decimals _ _ Hb) as (c & Hc & _).
    unfold group, int. simpl. rewrite Hs, Hc. reflexivity.
  - simpl. rewrite app_nil_r. reflexivity.
Qed.

Lemma parse_vdscript_v100_spec filepath text w :
  files w !! filepath = Some text ->
  V100.parse_vdscript unicode_decimal filepath w
  = Returned (omap (V100.line_segment unicode_decimal) (readlines text)) w.
Proof.
  intros Hfile. unfold V100.parse_vdscript.
  rewrite io_bind_run. unfold read_text. rewrite Hfile.
  rewrite (for_in_pure _
             (fun acc line =>
                acc ++ option_list (V100.line_segment unicode_decimal line))).
  - rewrite fold_left_option_list. reflexivity.
  - intros line acc w'. apply parse_step_v100.
Qed.

Lemma parse_vdscript_v100_missing filepath w :
  files w !! filepath = None ->
  V100.parse_vdscript unicode_decimal filepath w
  = Raised (FileNotFoundError filepath) w.
Proof.
  intros Hfile. unfold V100.parse_vdscript.
  rewrite io_bind_run. unfold read_text. rewrite Hfile. reflexivity.
Qed.

End ExtractorFacts.

(** ** The writer *)

Section WriterFacts.

(** [file.write] appends to the file that was opened. *)
Lemma file_write_then {A} (path s : str) (k : io A) (content : str)
    (fs : gmap str str) (out : list str) :
  (file_write path s ;; k) (World (<[path := content]> fs) out)
  = k (World (<[path := content ++ s]> fs) out).
Proof.
  rewrite io_bind_run. unfold file_write. simpl.
  rewrite alter_insert_eq. reflexivity.
Qed.

Lemma file_write_last (path s content : str) (fs : gmap str str)
    (out : list str) :
  file_write path s (World (<[path := content]> fs) out)
  = Returned tt (World (<[path := content ++ s]> fs) out).
Proof. unfold file_write. simpl. rewrite alter_insert_eq. reflexivity. Qed.

(** The loop of [write_cpf_file] appends one block per segment, in order. *)
Lemma write_segments_loop (file : str) (segs : list V110.segment) (i : Z)
    (content : str) (fs : gmap str str) (out : list str) :
  for_in (enumerate_from i segs) (fun '(i, segment) _ =>
      file_write file (py "  <!-- Segment " ++ str_of_int (i + 1) ++ py " -->" ++ [nl]);;
      file_write file (py "  <CutElements refVideoFile=" ++ q (py "0")
                       ++ py " StartPosition=" ++ q (str_of_int (V110.start segment))
                       ++ py " EndPosition=" ++ q (str_of_int (V110.end_ segment))
                       ++ py ">" ++ [nl]);;
      file_write file (py "    <cutAudioFiles refAudioFile=" ++ q (py "1")
                       ++ py " />" ++ [nl]);;
      file_write file (py "  </CutElements>" ++ [nl])) tt
    (World (<[file := content]> fs) out)
  = Returned tt (World (<[file := content ++ V110.cut_blocks i segs]> fs) out).
Proof.
  revert i content. induction segs as [|seg segs IH]; intros i content.
  - simpl. unfold V110.cut_blocks. simpl. rewrite app_nil_r. reflexivity.
  - cbn [enumerate_from for_in]. rewrite io_bind_run.
    rewrite !file_write_then, file_write_last, IH.
    unfold V110.cut_blocks. cbn [enumerate_from map concat].
    unfold V110.segment_comment, V110.cut_element.
    rewrite <- !app_assoc. reflexivity.
Qed.

(** On a free path the writer creates the file, with the whole document. *)
Lemma write_cpf_file_fresh (output video audio : str) segs w :
  files w !! output = None ->
  V110.write_cpf_file output video audio segs w
  = Returned tt (World (<[output := V110.cpf_document video audio segs]> (files w))
                       (stdout w ++ [V110.saved_message output])).
Proof.
  intros Hfree. unfold V110.write_cpf_file.
  rewrite io_bind_run. unfold path_exists.
  rewrite bool_decide_eq_false_2 by (rewrite Hfree; apply is_Some_None).
  rewrite io_bind_run. unfold open_w. cbv zeta.
  rewrite !file_write_then.
  unfold enumerate. rewrite io_bind_run, write_segments_loop.
  rewrite !file_write_then.
  unfold print. cbn [files stdout].
  unfold V110.cpf_document, V110.xml_declaration, V110.root_open,
    V110.used_video_file, V110.used_audio_file, V110.current_files,
    V110.root_close, V110.saved_message.
  rewrite <- !app_assoc. reflexivity.
Qed.

(** On a taken path the writer only prints. *)
Lemma write_cpf_file_taken (output video audio : str) segs w :
  is_Some (files w !! output) ->
  V110.write_cpf_file output video audio segs w
  = Returned tt (World (files w)
                       (stdout w ++ [V110.already_exists_message output])).
Proof.
  intros Htaken. unfold V110.write_cpf_file.
  rewrite io_bind_run. unfold path_exists.
  rewrite bool_decide_eq_true_2 by assumption.
  reflexivity.
Qed.

End WriterFacts.

(** ** Statements inside a line, and lines inside a text *)

Section LineFacts.

Variable unicode_decimal : N -> option N.

Local Notation "'is_dec'" := (is_decimal unicode_decimal).
Local Notation "'digits'" := (decimals unicode_decimal).
Local Notation "'subset_match'" :=
  (re_match unicode_decimal V110.subset_pattern).

(** The capital V (U+0056) occurs in a statement at its first place only. *)
Lemma statement_tail_no_V a b :
  digits a -> digits b ->
  exists tail, statement a b = 86%N :: tail /\ ~ In 86%N tail.
Proof.
  intros [_ Ha] [_ Hb].
  exists (py "irtualDub.subset.AddRange(" ++ a ++ py "," ++ b ++ py ");").
  split; [reflexivity|].
  assert (Hdec : is_dec 86%N = false) by (apply not_decimal_ascii; lia).
  assert (Hno : forall ds, Forall (fun c => is_dec c = true) ds -> ~ In 86%N ds).
  { intros ds Hds Hin. rewrite Forall_forall in Hds.
    apply list_elem_of_In in Hin. apply Hds in Hin. congruence. }
  rewrite !in_app_iff. intros [H|[H|[H|[H|H]]]].
  - vm_compute in H. intuition discriminate.
  - exact (Hno a Ha H).
  - vm_compute in H. intuition discriminate.
  - exact (Hno b Hb H).
  - vm_compute in H. intuition discriminate.
Qed.

(** Characters before a text that starts with V: the pattern matches the
    line exactly when it matches those leading characters alone. *)
Lemma subset_match_leading leading rest :
  leading <> [] ->
  subset_match (leading ++ 86%N :: rest) = subset_match leading.
Proof.
  intros Hne.
  destruct (subset_match leading) as [m|] eqn:Hlead.
  - apply subset_match_inv in Hlead as (a & b & r & Ha & Hb & -> & ->).
    rewrite <- app_assoc. apply subset_match_statement; assumption.
  - destruct (subset_match (leading ++ 86%N :: rest)) as [m|] eqn:Hline;
      [|reflexivity].
    exfalso.
    apply subset_match_inv in Hline as (a & b & r & Ha & Hb & Heq & ->).
    apply app_eq_inv in Heq as [(k & Hk & _)|(k & Hk & Hrest)].
    + rewrite Hk, subset_match_statement in Hlead by assumption. discriminate.
    + destruct k as [|c k].
      * rewrite app_nil_r in Hk. rewrite <- Hk in Hlead.
        rewrite <- (app_nil_r (statement a b)) in Hlead.
        rewrite subset_match_statement in Hlead by assumption. discriminate.
      * injection Hrest as <- _.
        destruct (statement_tail_no_V a b Ha Hb) as (tail & Htail & Hno).
        rewrite Htail in Hk.
        destruct leading as [|c0 leading]; [congruence|].
        injection Hk as _ Hk. apply Hno. rewrite Hk.
        apply in_app_iff. right. left. reflexivity.
Qed.

(** A statement holds no newline. *)
Lemma statement_one_line a b :
  digits a -> digits b -> Forall (fun c => c <> nl) (statement a b).
Proof.
  intros [_ Ha] [_ Hb].
  assert (Hdec : is_dec nl = false) by (apply not_decimal_ascii; unfold nl; lia).
  assert (Hno : forall ds, Forall (fun c => is_dec c = true) ds ->
                           Forall (fun c => c <> nl) ds).
  { intros ds Hds. eapply Forall_impl; [exact Hds|].
    intros c Hc ->. simpl in Hc. congruence. }
  unfold statement. repeat apply Forall_app_2; auto;
    apply Forall_forall; intros c Hc; apply list_elem_of_In in Hc;
    vm_compute in Hc; intros ->; intuition discriminate.
Qed.

(** A text made of statements, one per line, reads back as those lines. *)
Lemma readlines_statements (statements : list (str * str)) :
  Forall (fun '(a, b) => digits a /\ digits b) statements ->
  readlines (concat (map (fun '(a, b) => statement a b ++ [nl]) statements))
  = map (fun '(a, b) => statement a b ++ [nl]) statements.
Proof.
  unfold readlines.
  induction 1 as [|[a b] sts [Ha Hb] _ IH]; [reflexivity|].
  cbn [map concat]. rewrite <- app_assoc.
  etransitivity;
    [apply (readlines_from_line [] (statement a b));
     apply statement_one_line; assumption|].
  cbv beta iota fix. cbn [app]. rewrite IH. reflexivity.
Qed.

(** The segments of a text where a single line is told apart. *)
Lemma omap_around {A B} (f : A -> option B) pre x post :
  omap f (pre ++ [x] ++ post) = omap f pre ++ option_list (f x) ++ omap f post.
Proof.
  rewrite !omap_app. simpl. destruct (f x); reflexivity.
Qed.

Lemma omap_no_match (lines : list str) :
  Forall (fun line => subset_match line = None) lines ->
  omap (V110.line_segment unicode_decimal) lines = [].
Proof.
  induction 1 as [|line lines Hline _ IH]; simpl; [reflexivity|].
  apply line_segment_None in Hline. rewrite Hline. exact IH.
Qed.

(** The segment of a line that starts with a statement, in both versions. *)
Lemma line_segment_statement a b rest :
  digits a -> digits b ->
  exists s c,
    int_digits unicode_decimal a = Some s /\
    int_digits unicode_decimal b = Some c /\ 0 <= s /\ 0 <= c /\
    V110.line_segment unicode_decimal (statement a b ++ rest)
      = Some {| V110.start := s; V110.end_ := s + c - 1 |} /\
    V100.line_segment unicode_decimal (statement a b ++ rest)
      = Some {| V100.StartPosition := s; V100.EndPosition := s + c |}.
Proof.
  intros Ha Hb.
  destruct (line_range_statement unicode_decimal a b rest Ha Hb)
    as (s & c & Hs & Hc & Hs0 & Hc0 & Hr).
  exists s, c. repeat split; try assumption.
  - unfold V110.line_segment. rewrite Hr. reflexivity.
  - unfold V100.line_segment. rewrite line_range_same, Hr. reflexivity.
Qed.

(** The blocks of two runs of segments. *)
Lemma cut_blocks_app i (segs1 segs2 : list V110.segment) :
  V110.cut_blocks i (segs1 ++ segs2)
  = V110.cut_blocks i segs1
    ++ V110.cut_blocks (i + Z.of_nat (length segs1)) segs2.
Proof.
  unfold V110.cut_blocks. revert i.
  induction segs1 as [|seg segs1 IH]; intros i; simpl.
  - rewrite Z.add_0_r. reflexivity.
  - replace (i + Z.of_nat (S (length segs1)))
      with (i + 1 + Z.of_nat (length segs1)) by lia.
    rewrite IH, <- !app_assoc. reflexivity.
Qed.

End LineFacts.

(** ** Numbers read and blocks written, against their specification *)

Section NumberFacts.

Variable unicode_decimal : N -> option N.

Local Notation "'is_dec'" := (is_decimal unicode_decimal).
Local Notation "'digits'" := (decimals unicode_decimal).

(** Reading a run digit by digit from the left, as [int] does, gives the
    number the run spells place by place. *)
Lemma int_fold_run_value s acc :
  Forall (fun c => is_dec c = true) s ->
  fold_left (fun acc c =>
               match acc, decimal_value unicode_decimal c with
               | Some a, Some d => Some (10 * a + d)
               | _, _ => None
               end) s (Some acc)
  = Some (acc * 10 ^ Z.of_nat (length s) + run_value unicode_decimal s).
Proof.
  intros Hs. revert acc. induction Hs as [|c s Hc _ IH]; intros acc.
  - simpl. f_equal. lia.
  - apply is_decimal_value in Hc as (d & Hd & _).
    cbn [fold_left length run_value]. unfold digit_value. rewrite Hd, IH.
    rewrite Nat2Z.inj_succ. rewrite Z.pow_succ_r by lia. f_equal. ring.
Qed.

Lemma int_digits_run_value s :
  digits s -> int_digits unicode_decimal s = Some (run_value unicode_decimal s).
Proof.
  intros [Hne Hs]. unfold int_digits.
  destruct s as [|c s]; [congruence|].
  rewrite int_fold_run_value by assumption. f_equal; lia.
Qed.

Lemma run_value_nonneg s : 0 <= run_value unicode_decimal s.
Proof.
  induction s as [|c s IH]; simpl; [lia|].
  assert (0 <= digit_value unicode_decimal c).
  { unfold digit_value.
    destruct (decimal_value unicode_decimal c) as [d|] eqn:Hd; [|lia].
    assert (Hc : is_dec c = true) by (unfold is_decimal; rewrite Hd; reflexivity).
    apply is_decimal_value in Hc as (d' & Hd' & Hpos). congruence. }
  assert (0 <= 10 ^ Z.of_nat (length s)) by (apply Z.pow_nonneg; lia).
  nia.
Qed.

(** The segment of a line that starts with a statement, with the numbers the
    two runs spell. *)
Lemma line_segment_run_value a b rest :
  digits a -> digits b ->
  V110.line_range unicode_decimal (statement a b ++ rest)
    = Some (run_value unicode_decimal a, run_value unicode_decimal b) /\
  V110.line_segment unicode_decimal (statement a b ++ rest)
    = Some {| V110.start := run_value unicode_decimal a;
              V110.end_ := run_value unicode_decimal a
                           + run_value unicode_decimal b - 1 |} /\
  V100.line_segment unicode_decimal (statement a b ++ rest)
    = Some {| V100.StartPosition := run_value unicode_decimal a;
              V100.EndPosition := run_value unicode_decimal a
                                  + run_value unicode_decimal b |}.
Proof.
  intros Ha Hb.
  destruct (line_range_statement unicode_decimal a b rest Ha Hb)
    as (s & c & Hs & Hc & _ & _ & Hr).
  assert (s = run_value unicode_decimal a) as ->
    by (rewrite (int_digits_run_value a Ha) in Hs; congruence).
  assert (c = run_value unicode_decimal b) as ->
    by (rewrite (int_digits_run_value b Hb) in Hc; congruence).
  split; [exact Hr|]. split.
  - unfold V110.line_segment. rewrite Hr. reflexivity.
  - unfold V100.line_segment. rewrite line_range_same, Hr. reflexivity.
Qed.

(** The blocks of the writer, numbered by the place of each segment in the
    list. *)
Lemma cut_blocks_imap i (segs : list V110.segment) :
  V110.cut_blocks i segs
  = concat (imap (fun k seg =>
                    V110.segment_comment (i + Z.of_nat k)
                    ++ V110.cut_element seg) segs).
Proof.
  unfold V110.cut_blocks. revert i.
  induction segs as [|seg segs IH]; intros i; [reflexivity|].
  cbn [enumerate_from map concat]. rewrite imap_cons. cbn [concat].
  rewrite IH, Z.add_0_r. do 2 f_equal.
  apply imap_ext. intros k x _. unfold compose.
  replace (i + Z.of_nat (S k)) with (i + 1 + Z.of_nat k) by lia. reflexivity.
Qed.

End NumberFacts.

(** * The claims of the specification *)

Section Claims.

Variable unicode_decimal : N -> option N.

Local Notation "'digits'" := (decimals unicode_decimal).
Local Notation "'subset_match'" :=
  (re_match unicode_decimal V110.subset_pattern).

(** C1.  A source text whose lines include
    [VirtualDub.subset.AddRange(100,50);] and, further down,
    [VirtualDub.subset.AddRange(300,10);], and no other line that the pattern
    matches: [parse_vdscript] of v1.1.0 returns exactly the two segments
    (start 100, end 149) and (start 300, end 309), in that order.  [e1] and
    [e2] are what follows each statement on its line: the newline, or
    nothing when the text ends there. *)
Theorem C1_two_ranges (w : world) (filepath text : str)
    (pre mid post : list str) (e1 e2 : str) :
  files w !! filepath = Some text ->
  readlines text
    = pre ++ [py "VirtualDub.subset.AddRange(100,50);" ++ e1]
      ++ mid ++ [py "VirtualDub.subset.AddRange(300,10);" ++ e2] ++ post ->
  Forall (fun line => subset_match line = None) (pre ++ mid ++ post) ->
  V110.parse_vdscript unicode_decimal filepath w
  = Returned [ {| V110.start := 100; V110.end_ := 149 |};
               {| V110.start := 300; V110.end_ := 309 |} ] w.
Proof.
  intros Hfile Hlines Hothers.
  apply Forall_app in Hothers as [Hpre Hothers].
  apply Forall_app in Hothers as [Hmid Hpost].
  rewrite (parse_vdscript_v110_spec _ _ _ _ Hfile), Hlines.
  rewrite omap_around, omap_around.
  rewrite !omap_no_match by assumption.
  assert (Hd : forall s, Forall (fun c => (48 <=? c)%N && (c <=? 57)%N = true) s ->
                         s <> [] -> digits s).
  { intros s Hs Hne. split; [assumption|].
    eapply Forall_impl; [exact Hs|]. intros c Hc. simpl in Hc.
    apply andb_true_iff in Hc as [H1 H2].
    apply N.leb_le in H1, H2. rewrite is_decimal_ascii by lia.
    apply andb_true_iff. rewrite !N.leb_le. lia. }
  destruct (line_segment_statement unicode_decimal (py "100") (py "50") e1)
    as (s1 & c1 & Hs1 & Hc1 & _ & _ & E1 & _);
    [apply Hd; [repeat constructor | discriminate] ..|].
  destruct (line_segment_statement unicode_decimal (py "300") (py "10") e2)
    as (s2 & c2 & Hs2 & Hc2 & _ & _ & E2 & _);
    [apply Hd; [repeat constructor | discriminate] ..|].
  change (statement (py "100") (py "50"))
    with (py "VirtualDub.subset.AddRange(100,50);") in E1.
  change (statement (py "300") (py "10"))
    with (py "VirtualDub.subset.AddRange(300,10);") in E2.
  rewrite E1, E2.
  vm_compute in Hs1, Hc1, Hs2, Hc2.
  injection Hs1 as <-. injection Hc1 as <-.
  injection Hs2 as <-. injection Hc2 as <-.
  reflexivity.
Qed.

(** C2, as amended.  For every source text, every segment [parse_vdscript]
    produces comes from one matched line, in order, with the start and the
    count that line spells, and has a start that is not negative.  In v1.0.0
    its end is start + count, at least its start.  In v1.1.0 its end is
    start + count - 1: at least its start minus one, and at least its start
    exactly when the count is not zero. *)
Theorem C2_end_from_start (w : world) (filepath text : str) :
  files w !! filepath = Some text ->
  exists (segs110 : list V110.segment) (segs100 : list V100.segment),
    V110.parse_vdscript unicode_decimal filepath w = Returned segs110 w /\
    V100.parse_vdscript unicode_decimal filepath w = Returned segs100 w /\
    Forall (fun seg =>
              0 <= V100.StartPosition seg /\
              V100.StartPosition seg <= V100.EndPosition seg) segs100 /\
    Forall (fun seg =>
              0 <= V110.start seg /\
              V110.start seg - 1 <= V110.end_ seg) segs110 /\
    Forall2 (fun '(start_frame, frame_count) seg =>
               V100.StartPosition seg = start_frame /\
               V100.EndPosition seg = start_frame + frame_count)
            (omap (V110.line_range unicode_decimal) (readlines text)) segs100 /\
    Forall2 (fun '(start_frame, frame_count) seg =>
               V110.start seg = start_frame /\
               V110.end_ seg = start_frame + frame_count - 1 /\
               (V110.start seg <= V110.end_ seg <-> frame_count <> 0))
            (omap (V110.line_range unicode_decimal) (readlines text)) segs110 /\
    (forall line a b rest,
       digits a -> digits b -> line = statement a b ++ rest ->
       V110.line_range unicode_decimal line
       = Some (run_value unicode_decimal a, run_value unicode_decimal b)).
Proof.
  intros Hfile.
  exists (omap (V110.line_segment unicode_decimal) (readlines text)),
         (omap (V100.line_segment unicode_decimal) (readlines text)).
  split; [apply parse_vdscript_v110_spec; assumption|].
  split; [apply parse_vdscript_v100_spec; assumption|].
  assert (Hruns : forall line a b rest,
             digits a -> digits b -> line = statement a b ++ rest ->
             V110.line_range unicode_decimal line
             = Some (run_value unicode_decimal a, run_value unicode_decimal b)).
  { intros line a b rest Ha Hb ->.
    apply (line_segment_run_value unicode_decimal a b rest Ha Hb). }
  induction (readlines text) as [|line lines IH]; simpl.
  - repeat split; try constructor. exact Hruns.
  - destruct IH as (IH100 & IH110 & IH2100 & IH2110 & _).
    unfold V100.line_segment, V110.line_segment.
    rewrite line_range_same.
    destruct (V110.line_range unicode_decimal line) as [[s c]|] eqn:Hr; simpl.
    + apply line_range_inv in Hr as (a & b & rest & _ & _ & _ & _ & _ & Hs & Hc).
      repeat split; try constructor; simpl; try assumption; try lia.
    + repeat split; assumption.
Qed.

(** C3.  For every world and path, the two versions match the same lines
    (they compile the same pattern); when the file is there both return,
    with segment lists of equal length that agree on every start and whose
    ends differ by one, the end of v1.0.0 being the end of v1.1.0 plus 1;
    when it is not, both raise [FileNotFoundError]. *)
Theorem C3_versions_differ_by_one (w : world) (filepath : str) :
  (forall line,
     re_match unicode_decimal V100.subset_pattern line
     = re_match unicode_decimal V110.subset_pattern line) /\
  match files w !! filepath with
  | Some text =>
      exists (segs100 : list V100.segment) (segs110 : list V110.segment),
        V100.parse_vdscript unicode_decimal filepath w = Returned segs100 w /\
        V110.parse_vdscript unicode_decimal filepath w = Returned segs110 w /\
        length segs100 = length segs110 /\
        Forall2 (fun seg100 seg110 =>
                   V100.StartPosition seg100 = V110.start seg110 /\
                   V100.EndPosition seg100 = V110.end_ seg110 + 1)
                segs100 segs110
  | None =>
      V100.parse_vdscript unicode_decimal filepath w
        = Raised (FileNotFoundError filepath) w /\
      V110.parse_vdscript unicode_decimal filepath w
        = Raised (FileNotFoundError filepath) w
  end.
Proof.
  split; [reflexivity|].
  destruct (files w !! filepath) as [text|] eqn:Hfile.
  - exists (omap (V100.line_segment unicode_decimal) (readlines text)),
           (omap (V110.line_segment unicode_decimal) (readlines text)).
    split; [apply parse_vdscript_v100_spec; assumption|].
    split; [apply parse_vdscript_v110_spec; assumption|].
    assert (H2 : Forall2 (fun seg100 seg110 =>
                   V100.StartPosition seg100 = V110.start seg110 /\
                   V100.EndPosition seg100 = V110.end_ seg110 + 1)
                (omap (V100.line_segment unicode_decimal) (readlines text))
                (omap (V110.line_segment unicode_decimal) (readlines text))).
    { induction (readlines text) as [|line lines IH]; simpl; [constructor|].
      unfold V100.line_segment, V110.line_segment.
      rewrite line_range_same.
      destruct (V110.line_range unicode_decimal line) as [[s c]|]; simpl.
      - constructor; [simpl; lia | exact IH].
      - exact IH. }
    split; [eapply Forall2_length; exact H2 | exact H2].
  - split.
    + apply parse_vdscript_v100_missing; assumption.
    + apply parse_vdscript_v110_missing; assumption.
Qed.

(** C4.  If the destination path exists, [write_cpf_file] returns without
    raising and leaves every file as it was, the destination included:
    nothing is written or created; the only effect is the message on
    standard output that says the file already exists. *)
Theorem C4_refuses_existing (w : world) (output video audio : str)
    (cut_segments : list V110.segment) :
  is_Some (files w !! output) ->
  exists w',
    V110.write_cpf_file output video audio cut_segments w = Returned tt w' /\
    files w' = files w /\
    files w' !! output = files w !! output /\
    stdout w' = stdout w ++ [V110.already_exists_message output].
Proof.
  intros Htaken. eexists. split.
  - apply write_cpf_file_taken; assumption.
  - repeat split.
Qed.

(** C5.  Line matching is anchored at the start of the line.  A line that
    has one or more characters, whitespace or any other, before its
    statement (the first statement the line holds) is not matched by the
    pattern, and [parse_vdscript] produces no segment from it: the result
    is that of the other lines. *)
Theorem C5_anchored_at_start (w : world) (filepath text : str)
    (pre post : list str) (leading a b rest : str) :
  leading <> [] ->
  digits a -> digits b ->
  no_statement_before unicode_decimal
    (leading ++ statement a b ++ rest) (length leading) ->
  files w !! filepath = Some text ->
  readlines text = pre ++ [leading ++ statement a b ++ rest] ++ post ->
  subset_match (leading ++ statement a b ++ rest) = None /\
  V110.parse_vdscript unicode_decimal filepath w
  = Returned (omap (V110.line_segment unicode_decimal) (pre ++ post)) w.
Proof.
  intros Hne Ha Hb Hfirst Hfile Hlines.
  assert (Hline : subset_match (leading ++ statement a b ++ rest) = None).
  { destruct (subset_match (leading ++ statement a b ++ rest)) as [m|] eqn:Hm;
      [|reflexivity].
    exfalso.
    apply subset_match_inv in Hm as (a' & b' & rest' & Ha' & Hb' & Heq & _).
    specialize (Hfirst [] a' b' rest' Ha' Hb' Heq).
    destruct leading; [congruence | simpl in Hfirst; lia]. }
  split; [exact Hline|].
  rewrite (parse_vdscript_v110_spec _ _ _ _ Hfile), Hlines.
  rewrite omap_around, omap_app.
  apply line_segment_None in Hline. rewrite Hline. reflexivity.
Qed.

(** C6.  A script made of any list of statements, one per line, converted to
    a free destination.  The extractor returns one segment per statement, in
    the order of the lines, with the numbers the statement spells.  The
    destination then holds, between the four opening and the four closing
    lines, one block per segment in that same order: the comment with the
    place of the segment counted from 1, then its cut element.  Nothing is
    sorted, dropped or merged, whatever the numbers are; the list being
    arbitrary, this holds of every permutation of it. *)
Theorem C6_order_preserved (w : world) (vdscript cpf video audio : str)
    (statements : list (str * str)) :
  Forall (fun '(a, b) => digits a /\ digits b) statements ->
  files w !! vdscript
    = Some (concat (map (fun '(a, b) => statement a b ++ [nl]) statements)) ->
  files w !! cpf = None ->
  exists cut_segments : list V110.segment,
    Forall2 (fun '(a, b) seg =>
               V110.start seg = run_value unicode_decimal a /\
               V110.end_ seg
               = run_value unicode_decimal a + run_value unicode_decimal b - 1)
            statements cut_segments /\
    V110.parse_vdscript unicode_decimal vdscript w = Returned cut_segments w /\
    V110.convert_vdscript_to_cpf unicode_decimal vdscript cpf video audio w
    = Returned tt
        (World
           (<[cpf := V110.xml_declaration ++ V110.root_open
                     ++ V110.used_video_file video
                     ++ V110.used_audio_file audio
                     ++ concat (imap (fun place seg =>
                                        V110.segment_comment (Z.of_nat place)
                                        ++ V110.cut_element seg)
                                     cut_segments)
                     ++ V110.current_files ++ V110.root_close]> (files w))
           (stdout w ++ [V110.saved_message cpf])).
Proof.
  intros Hvalid Hfile Hfree.
  assert (Hlines := readlines_statements unicode_decimal _ Hvalid).
  assert (Hparse := parse_vdscript_v110_spec unicode_decimal _ _ _ Hfile).
  rewrite Hlines in Hparse.
  eexists. split; [|split; [exact Hparse|]].
  - clear Hfile Hlines Hparse.
    induction Hvalid as [|[a b] sts [Ha Hb] _ IH]; [constructor|].
    destruct (line_segment_run_value unicode_decimal a b [nl] Ha Hb)
      as (_ & E & _).
    change (omap (V110.line_segment unicode_decimal)
              (map (fun '(a, b) => statement a b ++ [nl]) ((a, b) :: sts)))
      with (match V110.line_segment unicode_decimal (statement a b ++ [nl]) with
            | Some seg =>
                seg :: omap (V110.line_segment unicode_decimal)
                         (map (fun '(a, b) => statement a b ++ [nl]) sts)
            | None =>
                omap (V110.line_segment unicode_decimal)
                  (map (fun '(a, b) => statement a b ++ [nl]) sts)
            end).
    rewrite E. constructor; [|exact IH].
    split; reflexivity.
  - unfold V110.convert_vdscript_to_cpf.
    rewrite io_bind_run, Hparse.
    rewrite write_cpf_file_fresh by assumption.
    unfold V110.cpf_document. rewrite cut_blocks_imap. reflexivity.
Qed.

(** C7.  The segment with start 412 and end 619, anywhere in the list given
    to [write_cpf_file]: its cut element is the text
    [  <CutElements refVideoFile="0" StartPosition="412" EndPosition="619">],
    [    <cutAudioFiles refAudioFile="1" />], [  </CutElements>], one per
    line, the numbers in decimal without padding, and the file written holds
    it after the blocks of the segments before it and its own comment. *)
Theorem C7_attribute_text (w : world) (output video audio : str)
    (before after : list V110.segment) :
  files w !! output = None ->
  let block :=
    py "  <CutElements refVideoFile=" ++ q (py "0")
    ++ py " StartPosition=" ++ q (py "412")
    ++ py " EndPosition=" ++ q (py "619") ++ py ">" ++ [nl]
    ++ py "    <cutAudioFiles refAudioFile=" ++ q (py "1") ++ py " />" ++ [nl]
    ++ py "  </CutElements>" ++ [nl] in
  let position := Z.of_nat (length before) in
  V110.cut_element {| V110.start := 412; V110.end_ := 619 |} = block /\
  V110.write_cpf_file output video audio
    (before ++ [ {| V110.start := 412; V110.end_ := 619 |} ] ++ after) w
  = Returned tt
      (World
         (<[output := V110.xml_declaration ++ V110.root_open
                      ++ V110.used_video_file video
                      ++ V110.used_audio_file audio
                      ++ V110.cut_blocks 0 before
                      ++ V110.segment_comment position
                      ++ block
                      ++ V110.cut_blocks (position + 1) after
                      ++ V110.current_files ++ V110.root_close]> (files w))
         (stdout w ++ [V110.saved_message output])).
Proof.
  intros Hfree block position.
  assert (Hblock : V110.cut_element {| V110.start := 412; V110.end_ := 619 |}
                   = block) by reflexivity.
  split; [exact Hblock|].
  rewrite write_cpf_file_fresh by assumption.
  unfold V110.cpf_document.
  rewrite cut_blocks_app. rewrite <- Hblock.
  change (V110.cut_blocks (0 + Z.of_nat (length before))
            ([ {| V110.start := 412; V110.end_ := 619 |} ] ++ after))
    with ((V110.segment_comment position
           ++ V110.cut_element {| V110.start := 412; V110.end_ := 619 |})
          ++ V110.cut_blocks (position + 1) after).
  rewrite <- !app_assoc. reflexivity.
Qed.

(** C8.  A source text none of whose lines the pattern matches:
    [parse_vdscript] returns the empty list, it does not raise; and
    [write_cpf_file] given the empty list writes to a free destination the
    document made of the XML declaration, the opening of [StateData], the
    one video file with [FileID="0"], the one audio file with [FileID="1"],
    the [CurrentFiles] block and the closing tag, with no cut element. *)
Theorem C8_no_match_empty_document (w : world)
    (vdscript cpf video audio text : str) :
  files w !! vdscript = Some text ->
  Forall (fun line => subset_match line = None) (readlines text) ->
  files w !! cpf = None ->
  V110.parse_vdscript unicode_decimal vdscript w = Returned [] w /\
  V110.write_cpf_file cpf video audio [] w
  = Returned tt
      (World
         (<[cpf :=
              py "<?xml version=" ++ q (py "1.0")
              ++ py " standalone=" ++ q (py "yes") ++ py "?>" ++ [nl]
              ++ py "<StateData xmlns="
              ++ q (py "http://cuttermaran.kickme.to/StateData.xsd")
              ++ py ">" ++ [nl]
              ++ py "  <usedVideoFiles FileID=" ++ q (py "0")
              ++ py " FileName=" ++ q video ++ py " />" ++ [nl]
              ++ py "  <usedAudioFiles FileID=" ++ q (py "1")
              ++ py " FileName=" ++ q audio
              ++ py " StartDelay=" ++ q (py "0") ++ py " />" ++ [nl]
              ++ py "  <CurrentFiles refVideoFiles=" ++ q (py "0")
              ++ py ">" ++ [nl]
              ++ py "    <currentAudioFiles refAudioFiles=" ++ q (py "1")
              ++ py " />" ++ [nl]
              ++ py "  </CurrentFiles>" ++ [nl]
              ++ py "</StateData>" ++ [nl]]> (files w))
         (stdout w ++ [V110.saved_message cpf])) /\
  V110.convert_vdscript_to_cpf unicode_decimal vdscript cpf video audio w
  = V110.write_cpf_file cpf video audio [] w.
Proof.
  intros Hfile Hnone Hfree.
  assert (Hparse : V110.parse_vdscript unicode_decimal vdscript w
                   = Returned [] w).
  { rewrite (parse_vdscript_v110_spec _ _ _ _ Hfile).
    rewrite omap_no_match by assumption. reflexivity. }
  split; [exact Hparse|]. split.
  - rewrite write_cpf_file_fresh by assumption.
    unfold V110.cpf_document, V110.xml_declaration, V110.root_open,
      V110.used_video_file, V110.used_audio_file, V110.current_files,
      V110.root_close, V110.cut_blocks.
    cbn [enumerate_from map concat].
    rewrite <- !app_assoc. reflexivity.
  - unfold V110.convert_vdscript_to_cpf.
    rewrite io_bind_run, Hparse. reflexivity.
Qed.

(** C9.  Whatever the video and audio paths are, [write_cpf_file] writes
    them between the double quotes of the two [FileName] attributes as they
    are: the characters between the quotes are exactly the path, and the
    paths occur nowhere else in the document. *)
Theorem C9_paths_verbatim (w : world) (output video audio : str)
    (cut_segments : list V110.segment) :
  files w !! output = None ->
  exists w',
    V110.write_cpf_file output video audio cut_segments w = Returned tt w' /\
    files w' !! output
    = Some (V110.xml_declaration ++ V110.root_open
            ++ (py "  <usedVideoFiles FileID=" ++ q (py "0")
                ++ py " FileName=" ++ [dquote] ++ video ++ [dquote]
                ++ py " />" ++ [nl])
            ++ (py "  <usedAudioFiles FileID=" ++ q (py "1")
                ++ py " FileName=" ++ [dquote] ++ audio ++ [dquote]
                ++ py " StartDelay=" ++ q (py "0") ++ py " />" ++ [nl])
            ++ V110.cut_blocks 0 cut_segments
            ++ V110.current_files ++ V110.root_close).
Proof.
  intros Hfree. eexists. split.
  - apply write_cpf_file_fresh; assumption.
  - cbn [files]. rewrite lookup_insert_eq. f_equal.
    unfold V110.cpf_document, V110.used_video_file, V110.used_audio_file, q.
    repeat (rewrite <- app_assoc || rewrite <- app_comm_cons
            || rewrite app_nil_l).
    reflexivity.
Qed.

(** C10.  The pattern is not anchored at the end of the line.  A line that
    starts with a statement and goes on with any characters after the
    semicolon is matched, its groups are the two runs of digits, and
    [parse_vdscript] adds at the place of the line the segment of the
    numbers the two runs spell: start and start + count - 1 in v1.1.0, start
    and start + count in v1.0.0.  The numbers of the text are taken within
    the limit of [int()], beyond which the interpreter raises. *)
Theorem C10_trailing_characters (w : world) (filepath text : str)
    (pre post : list str) (a b trailing : str) :
  digits a -> digits b ->
  (length a <= int_max_str_digits)%nat ->
  (length b <= int_max_str_digits)%nat ->
  Forall (numbers_within_limit unicode_decimal) (pre ++ post) ->
  files w !! filepath = Some text ->
  readlines text = pre ++ [statement a b ++ trailing] ++ post ->
  subset_match (statement a b ++ trailing) = Some [a; b] /\
  V110.parse_vdscript unicode_decimal filepath w
  = Returned (omap (V110.line_segment unicode_decimal) pre
              ++ [ {| V110.start := run_value unicode_decimal a;
                      V110.end_ := run_value unicode_decimal a
                                   + run_value unicode_decimal b - 1 |} ]
              ++ omap (V110.line_segment unicode_decimal) post) w /\
  V100.parse_vdscript unicode_decimal filepath w
  = Returned (omap (V100.line_segment unicode_decimal) pre
              ++ [ {| V100.StartPosition := run_value unicode_decimal a;
                      V100.EndPosition := run_value unicode_decimal a
                                          + run_value unicode_decimal b |} ]
              ++ omap (V100.line_segment unicode_decimal) post) w.
Proof.
  intros Ha Hb _ _ _ Hfile Hlines.
  destruct (line_segment_run_value unicode_decimal a b trailing Ha Hb)
    as (_ & E110 & E100).
  split; [apply subset_match_statement; assumption|].
  split.
  - rewrite (parse_vdscript_v110_spec _ _ _ _ Hfile), Hlines.
    rewrite omap_around, E110. reflexivity.
  - rewrite (parse_vdscript_v100_spec _ _ _ _ Hfile), Hlines.
    rewrite omap_around, E100. reflexivity.
Qed.

End Claims.

(** * The claims at concrete inputs *)

(** The paths are those of the usage example of the script; the table of
    digits is [arabic_indic]. *)

(** C1 on a script of four lines, the first and the last of which do not
    match. *)
Lemma C1_two_ranges_witness :
  let text :=
    py "VirtualDub.subset.Delete();" ++ [nl]
    ++ py "VirtualDub.subset.AddRange(100,50);" ++ [nl]
    ++ py "VirtualDub.subset.AddRange(300,10);" ++ [nl]
    ++ py "VirtualDub.video.SetRange();" in
  let w := World {[ V110.vdscript_filepath := text ]} [] in
  V110.parse_vdscript arabic_indic V110.vdscript_filepath w
  = Returned [ {| V110.start := 100; V110.end_ := 149 |};
               {| V110.start := 300; V110.end_ := 309 |} ] w.
Proof.
  intros text w.
  apply (C1_two_ranges arabic_indic w V110.vdscript_filepath text
           [py "VirtualDub.subset.Delete();" ++ [nl]] []
           [py "VirtualDub.video.SetRange();"] [nl] [nl]).
  - vm_compute. reflexivity.
  - vm_compute. reflexivity.
  - repeat constructor.
Defined.

(** The claim C2 as the specification has it fails in v1.1.0 on a statement
    whose count is zero: the segment has start 5 and end 4. *)
Lemma C2_end_before_start :
  let w := World {[ V110.vdscript_filepath := py "VirtualDub.subset.AddRange(5,0);" ++ [nl] ]} [] in
  let seg := {| V110.start := 5; V110.end_ := 4 |} in
  V110.parse_vdscript arabic_indic V110.vdscript_filepath w = Returned [seg] w /\
  ~ (V110.end_ seg >= V110.start seg).
Proof.
  intros w seg. split.
  - vm_compute. reflexivity.
  - simpl. lia.
Qed.

(** C2 as amended, on a script with a count of zero and one in Arabic-Indic
    digits. *)
Lemma C2_end_from_start_witness :
  let text :=
    py "VirtualDub.subset.AddRange(5,0);" ++ [nl]
    ++ py "VirtualDub.subset.AddRange(" ++ [1633; 1634]%N ++ py ","
    ++ [1639]%N ++ py ");" ++ [nl] in
  let w := World {[ V110.vdscript_filepath := text ]} [] in
  V110.parse_vdscript arabic_indic V110.vdscript_filepath w
  = Returned [ {| V110.start := 5; V110.end_ := 4 |};
               {| V110.start := 12; V110.end_ := 18 |} ] w /\
  V100.parse_vdscript arabic_indic V110.vdscript_filepath w
  = Returned [ {| V100.StartPosition := 5; V100.EndPosition := 5 |};
               {| V100.StartPosition := 12; V100.EndPosition := 19 |} ] w /\
  omap (V110.line_range arabic_indic) (readlines text) = [ (5, 0); (12, 7) ].
Proof.
  intros text w.
  destruct (C2_end_from_start arabic_indic w V110.vdscript_filepath text)
    as (segs110 & segs100 & H110 & H100 & _ & _ & F100 & F110 & _).
  - vm_compute. reflexivity.
  - assert (Hr : omap (V110.line_range arabic_indic) (readlines text)
                 = [ (5, 0); (12, 7) ]) by (vm_compute; reflexivity).
    rewrite Hr in F100, F110.
    apply Forall2_cons_inv_l in F110 as ([x1 y1] & k1 & (E1 & E2 & _) & F110 & ->).
    apply Forall2_cons_inv_l in F110 as ([x2 y2] & k2 & (E3 & E4 & _) & F110 & ->).
    apply Forall2_nil_inv_l in F110 as ->.
    apply Forall2_cons_inv_l in F100 as ([u1 v1] & j1 & (G1 & G2) & F100 & ->).
    apply Forall2_cons_inv_l in F100 as ([u2 v2] & j2 & (G3 & G4) & F100 & ->).
    apply Forall2_nil_inv_l in F100 as ->.
    simpl in E1, E2, E3, E4, G1, G2, G3, G4. subst.
    split; [exact H110|]. split; [exact H100 | exact Hr].
Defined.

(** C4 on a world where the destination is there already. *)
Lemma C4_refuses_existing_witness :
  let w := World {[ V110.cpf_filepath := py "<?xml" ]} [] in
  exists w',
    V110.write_cpf_file V110.cpf_filepath V110.video_filepath V110.audio_filepath
      [ {| V110.start := 412; V110.end_ := 619 |} ] w = Returned tt w' /\
    files w' = files w /\
    files w' !! V110.cpf_filepath = files w !! V110.cpf_filepath /\
    stdout w' = stdout w ++ [V110.already_exists_message V110.cpf_filepath].
Proof.
  intros w.
  apply (C4_refuses_existing w V110.cpf_filepath V110.video_filepath V110.audio_filepath
           [ {| V110.start := 412; V110.end_ := 619 |} ]).
  vm_compute. eexists. reflexivity.
Defined.

(** C5 on a line that starts with two spaces, after a line that matches. *)
Lemma C5_anchored_at_start_witness :
  let line := py "  " ++ statement (py "412") (py "208") ++ [nl] in
  let text := py "VirtualDub.subset.AddRange(0,10);" ++ [nl] ++ line in
  let w := World {[ V110.vdscript_filepath := text ]} [] in
  re_match arabic_indic V110.subset_pattern line = None /\
  V110.parse_vdscript arabic_indic V110.vdscript_filepath w
  = Returned (omap (V110.line_segment arabic_indic)
                ([py "VirtualDub.subset.AddRange(0,10);" ++ [nl]] ++ [])) w.
Proof.
  intros line text w.
  apply (C5_anchored_at_start arabic_indic w V110.vdscript_filepath text
           [py "VirtualDub.subset.AddRange(0,10);" ++ [nl]] []
           (py "  ") (py "412") (py "208") [nl]).
  - discriminate.
  - run_digits.
  - run_digits.
  - intros before a b rest _ _ Heq.
    destruct before as [|c0 [|c1 before]]; [discriminate Heq | | simpl; lia].
    injection Heq as _ Heq. discriminate Heq.
  - vm_compute. reflexivity.
  - vm_compute. reflexivity.
Defined.

(** C6 on statements that are neither sorted nor distinct, one of them in
    Arabic-Indic digits and with leading zeros, with the whole document
    spelled out. *)
Lemma C6_order_preserved_witness :
  let statements :=
    [ (py "300", py "10"); (py "100", py "50"); (py "100", py "50");
      ([1635]%N, py "007") ] in
  let text := concat (map (fun '(a, b) => statement a b ++ [nl]) statements) in
  let w := World {[ V110.vdscript_filepath := text ]} [] in
  let block (place start_frame end_frame : str) :=
    py "  <!-- Segment " ++ place ++ py " -->" ++ [nl]
    ++ py "  <CutElements refVideoFile=" ++ q (py "0")
    ++ py " StartPosition=" ++ q start_frame
    ++ py " EndPosition=" ++ q end_frame ++ py ">" ++ [nl]
    ++ py "    <cutAudioFiles refAudioFile=" ++ q (py "1") ++ py " />" ++ [nl]
    ++ py "  </CutElements>" ++ [nl] in
  V110.parse_vdscript arabic_indic V110.vdscript_filepath w
  = Returned [ {| V110.start := 300; V110.end_ := 309 |};
               {| V110.start := 100; V110.end_ := 149 |};
               {| V110.start := 100; V110.end_ := 149 |};
               {| V110.start := 3; V110.end_ := 9 |} ] w /\
  V110.convert_vdscript_to_cpf arabic_indic V110.vdscript_filepath
    V110.cpf_filepath V110.video_filepath V110.audio_filepath w
  = Returned tt
      (World
         (<[V110.cpf_filepath :=
              py "<?xml version=" ++ q (py "1.0")
              ++ py " standalone=" ++ q (py "yes") ++ py "?>" ++ [nl]
              ++ py "<StateData xmlns="
              ++ q (py "http://cuttermaran.kickme.to/StateData.xsd")
              ++ py ">" ++ [nl]
              ++ py "  <usedVideoFiles FileID=" ++ q (py "0")
              ++ py " FileName=" ++ q (py "C:\New folder\test.m2v")
              ++ py " />" ++ [nl]
              ++ py "  <usedAudioFiles FileID=" ++ q (py "1")
              ++ py " FileName=" ++ q (py "C:\New folder\test.mp2")
              ++ py " StartDelay=" ++ q (py "0") ++ py " />" ++ [nl]
              ++ block (py "1") (py "300") (py "309")
              ++ block (py "2") (py "100") (py "149")
              ++ block (py "3") (py "100") (py "149")
              ++ block (py "4") (py "3") (py "9")
              ++ py "  <CurrentFiles refVideoFiles=" ++ q (py "0")
              ++ py ">" ++ [nl]
              ++ py "    <currentAudioFiles refAudioFiles=" ++ q (py "1")
              ++ py " />" ++ [nl]
              ++ py "  </CurrentFiles>" ++ [nl]
              ++ py "</StateData>" ++ [nl]]> (files w))
         (stdout w
          ++ [py "Cuttermaran project file saved as C:\New folder\output.cpf"])).
Proof.
  intros statements text w block.
  destruct (C6_order_preserved arabic_indic w V110.vdscript_filepath
              V110.cpf_filepath V110.video_filepath V110.audio_filepath
              statements)
    as (segs & Hsegs & Hparse & Hconvert).
  - do 4 (constructor; [split; run_digits|]). constructor.
  - vm_compute. reflexivity.
  - vm_compute. reflexivity.
  - unfold statements in Hsegs.
    apply Forall2_cons_inv_l in Hsegs as ([x1 y1] & k1 & (E1 & E2) & Hsegs & ->).
    apply Forall2_cons_inv_l in Hsegs as ([x2 y2] & k2 & (E3 & E4) & Hsegs & ->).
    apply Forall2_cons_inv_l in Hsegs as ([x3 y3] & k3 & (E5 & E6) & Hsegs & ->).
    apply Forall2_cons_inv_l in Hsegs as ([x4 y4] & k4 & (E7 & E8) & Hsegs & ->).
    apply Forall2_nil_inv_l in Hsegs as ->.
    simpl in E1, E2, E3, E4, E5, E6, E7, E8. subst.
    split; [exact Hparse|].
    etransitivity; [exact Hconvert|]. vm_compute. reflexivity.
Defined.

(** C7 with the segment second of three. *)
Lemma C7_attribute_text_witness :
  let w := World {[ V110.vdscript_filepath := py "" ]} [] in
  let seg := {| V110.start := 412; V110.end_ := 619 |} in
  let block :=
    py "  <CutElements refVideoFile=" ++ q (py "0")
    ++ py " StartPosition=" ++ q (py "412")
    ++ py " EndPosition=" ++ q (py "619") ++ py ">" ++ [nl]
    ++ py "    <cutAudioFiles refAudioFile=" ++ q (py "1") ++ py " />" ++ [nl]
    ++ py "  </CutElements>" ++ [nl] in
  V110.cut_element seg = block /\
  V110.write_cpf_file V110.cpf_filepath V110.video_filepath V110.audio_filepath
    ([ {| V110.start := 0; V110.end_ := 9 |} ] ++ [seg]
     ++ [ {| V110.start := 700; V110.end_ := 701 |} ]) w
  = Returned tt
      (World
         (<[V110.cpf_filepath := V110.xml_declaration ++ V110.root_open
                        ++ V110.used_video_file V110.video_filepath
                        ++ V110.used_audio_file V110.audio_filepath
                        ++ V110.cut_blocks 0 [ {| V110.start := 0; V110.end_ := 9 |} ]
                        ++ V110.segment_comment 1
                        ++ block
                        ++ V110.cut_blocks (1 + 1)
                             [ {| V110.start := 700; V110.end_ := 701 |} ]
                        ++ V110.current_files ++ V110.root_close]> (files w))
         (stdout w ++ [V110.saved_message V110.cpf_filepath])).
Proof.
  intros w seg block.
  apply (C7_attribute_text w V110.cpf_filepath V110.video_filepath V110.audio_filepath
           [ {| V110.start := 0; V110.end_ := 9 |} ]
           [ {| V110.start := 700; V110.end_ := 701 |} ]).
  vm_compute. reflexivity.
Defined.

(** C8 on a script without any statement. *)
Lemma C8_no_match_empty_document_witness :
  let text :=
    py "// no cuts" ++ [nl]
    ++ py " VirtualDub.subset.AddRange(1,2);" ++ [nl]
    ++ py "VirtualDub.subset.AddRange(1, 2);" ++ [nl]
    ++ py "virtualdub.subset.AddRange(1,2);" ++ [nl]
    ++ py "VirtualDub.subset.AddRange(1,2)" in
  let w := World {[ V110.vdscript_filepath := text ]} [] in
  V110.parse_vdscript arabic_indic V110.vdscript_filepath w = Returned [] w /\
  V110.write_cpf_file V110.cpf_filepath V110.video_filepath V110.audio_filepath [] w
  = Returned tt
      (World
         (<[V110.cpf_filepath :=
              py "<?xml version=" ++ q (py "1.0")
              ++ py " standalone=" ++ q (py "yes") ++ py "?>" ++ [nl]
              ++ py "<StateData xmlns="
              ++ q (py "http://cuttermaran.kickme.to/StateData.xsd")
              ++ py ">" ++ [nl]
              ++ py "  <usedVideoFiles FileID=" ++ q (py "0")
              ++ py " FileName=" ++ q V110.video_filepath ++ py " />" ++ [nl]
              ++ py "  <usedAudioFiles FileID=" ++ q (py "1")
              ++ py " FileName=" ++ q V110.audio_filepath
              ++ py " StartDelay=" ++ q (py "0") ++ py " />" ++ [nl]
              ++ py "  <CurrentFiles refVideoFiles=" ++ q (py "0")
              ++ py ">" ++ [nl]
              ++ py "    <currentAudioFiles refAudioFiles=" ++ q (py "1")
              ++ py " />" ++ [nl]
              ++ py "  </CurrentFiles>" ++ [nl]
              ++ py "</StateData>" ++ [nl]]> (files w))
         (stdout w ++ [V110.saved_message V110.cpf_filepath])) /\
  V110.convert_vdscript_to_cpf arabic_indic V110.vdscript_filepath V110.cpf_filepath
    V110.video_filepath V110.audio_filepath w
  = V110.write_cpf_file V110.cpf_filepath V110.video_filepath V110.audio_filepath [] w.
Proof.
  intros text w.
  apply (C8_no_match_empty_document arabic_indic w V110.vdscript_filepath V110.cpf_filepath
           V110.video_filepath V110.audio_filepath text).
  - vm_compute. reflexivity.
  - vm_compute. repeat constructor.
  - vm_compute. reflexivity.
Defined.

(** C9 on paths that hold the characters XML reserves. *)
Lemma C9_paths_verbatim_witness :
  let video := py "C:\a&b\<cut>" ++ [dquote] ++ py ".m2v" in
  let audio := py "C:\a&b\<cut>" ++ [dquote] ++ py ".mp2" in
  let w := World {[ V110.vdscript_filepath := py "" ]} [] in
  exists w',
    V110.write_cpf_file V110.cpf_filepath video audio [] w = Returned tt w' /\
    files w' !! V110.cpf_filepath
    = Some (V110.xml_declaration ++ V110.root_open
            ++ (py "  <usedVideoFiles FileID=" ++ q (py "0")
                ++ py " FileName=" ++ [dquote] ++ video ++ [dquote]
                ++ py " />" ++ [nl])
            ++ (py "  <usedAudioFiles FileID=" ++ q (py "1")
                ++ py " FileName=" ++ [dquote] ++ audio ++ [dquote]
                ++ py " StartDelay=" ++ q (py "0") ++ py " />" ++ [nl])
            ++ V110.cut_blocks 0 []
            ++ V110.current_files ++ V110.root_close).
Proof.
  intros video audio w.
  apply (C9_paths_verbatim w V110.cpf_filepath video audio []).
  vm_compute. reflexivity.
Defined.

(** C10 on a line that goes on after the semicolon, with a comment and with
    a second statement; the line before it matches too. *)
Lemma C10_trailing_characters_witness :
  let trailing := py " // keep" ++ statement (py "1") (py "1") ++ [nl] in
  let first := py "VirtualDub.subset.AddRange(0,10);" ++ [nl] in
  let text := first ++ statement (py "412") (py "208") ++ trailing in
  let w := World {[ V110.vdscript_filepath := text ]} [] in
  re_match arabic_indic V110.subset_pattern
    (statement (py "412") (py "208") ++ trailing)
  = Some [py "412"; py "208"] /\
  V110.parse_vdscript arabic_indic V110.vdscript_filepath w
  = Returned ([ {| V110.start := 0; V110.end_ := 9 |} ]
              ++ [ {| V110.start := 412; V110.end_ := 619 |} ]
              ++ []) w /\
  V100.parse_vdscript arabic_indic V110.vdscript_filepath w
  = Returned ([ {| V100.StartPosition := 0; V100.EndPosition := 10 |} ]
              ++ [ {| V100.StartPosition := 412; V100.EndPosition := 620 |} ]
              ++ []) w.
Proof.
  intros trailing first text w.
  apply (C10_trailing_characters arabic_indic w V110.vdscript_filepath text
           [first] [] (py "412") (py "208") trailing).
  - run_digits.
  - run_digits.
  - vm_compute. lia.
  - vm_compute. lia.
  - constructor; [|constructor].
    intros m Hm. vm_compute in Hm. injection Hm as <-.
    repeat (constructor; [vm_compute; lia|]). constructor.
  - vm_compute. reflexivity.
  - vm_compute. reflexivity.
Defined.

(** * Further properties of the two scripts *)

(** ** The writer of v1.0.0 and the two converters *)

Section ConverterFacts.

Variable unicode_decimal : N -> option N.

(** The loop of the writer of v1.0.0 appends one cut element per segment. *)
Lemma write_segments_loop_v100 (file : str) (segs : list V100.segment)
    (content : str) (fs : gmap str str) (out : list str) :
  for_in segs (fun segment _ =>
      file_write file (py "  <CutElements refVideoFile=" ++ q (py "0")
                       ++ py " StartPosition="
                       ++ q (str_of_int (V100.StartPosition segment))
                       ++ py " EndPosition="
                       ++ q (str_of_int (V100.EndPosition segment))
                       ++ py ">" ++ [nl]);;
      file_write file (py "    <cutAudioFiles refAudioFile=" ++ q (py "1")
                       ++ py " />" ++ [nl]);;
      file_write file (py "  </CutElements>" ++ [nl])) tt
    (World (<[file := content]> fs) out)
  = Returned tt
      (World (<[file := content ++ concat (map V100.cut_element segs)]> fs) out).
Proof.
  revert content. induction segs as [|seg segs IH]; intros content.
  - simpl. rewrite app_nil_r. reflexivity.
  - cbn [for_in]. rewrite io_bind_run.
    rewrite !file_write_then, file_write_last, IH.
    cbn [map concat]. unfold V100.cut_element.
    rewrite <- !app_assoc. reflexivity.
Qed.

Lemma write_cpf_file_v100_fresh (output video audio : str) segs w :
  files w !! output = None ->
  V100.write_cpf_file output video audio segs w
  = Returned tt (World (<[output := V100.cpf_document video audio segs]> (files w))
                       (stdout w ++ [V110.saved_message output])).
Proof.
  intros Hfree. unfold V100.write_cpf_file.
  rewrite io_bind_run. unfold path_exists.
  rewrite bool_decide_eq_false_2 by (rewrite Hfree; apply is_Some_None).
  rewrite io_bind_run. unfold open_w. cbv zeta.
  rewrite !file_write_then.
  rewrite io_bind_run, write_segments_loop_v100.
  rewrite !file_write_then.
  unfold print. cbn [files stdout].
  unfold V100.cpf_document, V110.xml_declaration, V110.root_open,
    V110.used_video_file, V110.used_audio_file, V110.current_files,
    V110.root_close, V110.saved_message.
  rewrite <- !app_assoc. reflexivity.
Qed.

Lemma write_cpf_file_v100_taken (output video audio : str) segs w :
  is_Some (files w !! output) ->
  V100.write_cpf_file output video audio segs w
  = Returned tt (World (files w)
                       (stdout w ++ [V110.already_exists_message output])).
Proof.
  intros Htaken. unfold V100.write_cpf_file.
  rewrite io_bind_run. unfold path_exists.
  rewrite bool_decide_eq_true_2 by assumption.
  reflexivity.
Qed.

(** A converter is its extractor, then its writer on what was extracted. *)
Lemma convert_v110_run (vdscript cpf video audio : str) w :
  V110.convert_vdscript_to_cpf unicode_decimal vdscript cpf video audio w
  = match files w !! vdscript with
    | Some text =>
        V110.write_cpf_file cpf video audio
          (omap (V110.line_segment unicode_decimal) (readlines text)) w
    | None => Raised (FileNotFoundError vdscript) w
    end.
Proof.
  unfold V110.convert_vdscript_to_cpf. rewrite io_bind_run.
  destruct (files w !! vdscript) as [text|] eqn:Hfile.
  - rewrite (parse_vdscript_v110_spec _ _ _ _ Hfile). reflexivity.
  - rewrite parse_vdscript_v110_missing by assumption. reflexivity.
Qed.

Lemma convert_v100_run (vdscript cpf video audio : str) w :
  V100.convert_vdscript_to_cpf unicode_decimal vdscript cpf video audio w
  = match files w !! vdscript with
    | Some text =>
        V100.write_cpf_file cpf video audio
          (omap (V100.line_segment unicode_decimal) (readlines text)) w
    | None => Raised (FileNotFoundError vdscript) w
    end.
Proof.
  unfold V100.convert_vdscript_to_cpf. rewrite io_bind_run.
  destruct (files w !! vdscript) as [text|] eqn:Hfile.
  - rewrite (parse_vdscript_v100_spec _ _ _ _ Hfile). reflexivity.
  - rewrite parse_vdscript_v100_missing by assumption. reflexivity.
Qed.

(** The files after a call of a writer: the destination is added when it
    was free, nothing changes otherwise. *)
Lemma write_cpf_file_files (output video audio : str) segs w :
  files (final_world (V110.write_cpf_file output video audio segs w))
  = match files w !! output with
    | Some _ => files w
    | None => <[output := V110.cpf_document video audio segs]> (files w)
    end.
Proof.
  destruct (files w !! output) as [old|] eqn:Hout.
  - rewrite write_cpf_file_taken by (rewrite Hout; eexists; reflexivity).
    reflexivity.
  - rewrite write_cpf_file_fresh by assumption. reflexivity.
Qed.

Lemma write_cpf_file_v100_files (output video audio : str) segs w :
  files (final_world (V100.write_cpf_file output video audio segs w))
  = match files w !! output with
    | Some _ => files w
    | None => <[output := V100.cpf_document video audio segs]> (files w)
    end.
Proof.
  destruct (files w !! output) as [old|] eqn:Hout.
  - rewrite write_cpf_file_v100_taken by (rewrite Hout; eexists; reflexivity).
    reflexivity.
  - rewrite write_cpf_file_v100_fresh by assumption. reflexivity.
Qed.

(** X1.  Without the script file the converter stops in the extractor: both
    versions raise [FileNotFoundError] for the script path and leave the
    world as it was, whether or not the destination exists; no project file
    is created and nothing is printed. *)
Theorem convert_missing_script (w : world) (vdscript cpf video audio : str) :
  files w !! vdscript = None ->
  V110.convert_vdscript_to_cpf unicode_decimal vdscript cpf video audio w
  = Raised (FileNotFoundError vdscript) w /\
  V100.convert_vdscript_to_cpf unicode_decimal vdscript cpf video audio w
  = Raised (FileNotFoundError vdscript) w.
Proof.
  intros Hfile. rewrite convert_v110_run, convert_v100_run, Hfile.
  split; reflexivity.
Qed.

(** X2.  With a readable script and a destination that exists, both
    converters return without raising, leave every file as it was and print
    the already-exists message only.  The destination may be the script
    itself: a converter never writes over its input. *)
Theorem convert_existing_destination (w : world)
    (vdscript cpf video audio : str) :
  is_Some (files w !! vdscript) ->
  is_Some (files w !! cpf) ->
  V110.convert_vdscript_to_cpf unicode_decimal vdscript cpf video audio w
  = Returned tt (World (files w)
                       (stdout w ++ [V110.already_exists_message cpf])) /\
  V100.convert_vdscript_to_cpf unicode_decimal vdscript cpf video audio w
  = Returned tt (World (files w)
                       (stdout w ++ [V110.already_exists_message cpf])).
Proof.
  intros [text Hfile] Htaken.
  rewrite convert_v110_run, convert_v100_run, Hfile.
  rewrite write_cpf_file_taken, write_cpf_file_v100_taken by assumption.
  split; reflexivity.
Qed.

(** X3.  Whatever its arguments and the world, and whether it returns or
    raises, a converter leaves untouched every path other than the
    destination and every file that exists: it creates at most the
    destination and never changes or removes a file. *)
Theorem convert_keeps_files (w : world) (vdscript cpf video audio p : str) :
  p <> cpf \/ is_Some (files w !! p) ->
  files (final_world
           (V110.convert_vdscript_to_cpf unicode_decimal vdscript cpf
              video audio w)) !! p = files w !! p /\
  files (final_world
           (V100.convert_vdscript_to_cpf unicode_decimal vdscript cpf
              video audio w)) !! p = files w !! p.
Proof.
  intros Hp. rewrite convert_v110_run, convert_v100_run.
  destruct (files w !! vdscript) as [text|]; [|split; reflexivity].
  rewrite write_cpf_file_files, write_cpf_file_v100_files.
  destruct (files w !! cpf) as [old|] eqn:Hcpf; [split; reflexivity|].
  assert (Hne : cpf <> p).
  { destruct Hp as [Hp|[c Hc]]; [congruence|]. intros ->. congruence. }
  rewrite !lookup_insert_ne by assumption. split; reflexivity.
Qed.

(** X4.  A conversion that succeeded is not repeated: after v1.1.0 has
    written the project file, a second run with the same script and
    destination, whatever the media paths, returns with the files as the
    first run left them and prints the already-exists message. *)
Theorem convert_twice (w : world)
    (vdscript cpf video audio video' audio' text : str) :
  files w !! vdscript = Some text ->
  files w !! cpf = None ->
  exists w1 w2,
    V110.convert_vdscript_to_cpf unicode_decimal vdscript cpf video audio w
    = Returned tt w1 /\
    files w1 !! cpf
    = Some (V110.cpf_document video audio
              (omap (V110.line_segment unicode_decimal) (readlines text))) /\
    V110.convert_vdscript_to_cpf unicode_decimal vdscript cpf video' audio' w1
    = Returned tt w2 /\
    files w2 = files w1 /\
    stdout w2
    = stdout w ++ [V110.saved_message cpf; V110.already_exists_message cpf].
Proof.
  intros Hfile Hfree.
  assert (Hne : cpf <> vdscript) by (intros ->; congruence).
  eexists. eexists.
  split.
  { rewrite convert_v110_run, Hfile.
    apply write_cpf_file_fresh. assumption. }
  split; [cbn [files]; apply lookup_insert_eq|].
  split.
  { rewrite convert_v110_run. cbn [files].
    rewrite lookup_insert_ne, Hfile by assumption.
    apply write_cpf_file_taken. cbn [files].
    rewrite lookup_insert_eq. eexists. reflexivity. }
  split; [reflexivity|].
  cbn [stdout]. rewrite <- app_assoc. reflexivity.
Qed.

(** X5.  The writer of v1.0.0: on a destination that exists it prints the
    already-exists message and leaves the files as they were; on a free one
    it creates the file with the four opening lines, one cut element of
    three lines per segment in the order of the list, without a comment, and
    the four closing lines, then prints that the file was saved. *)
Theorem write_cpf_file_v100_outcome (w : world) (output video audio : str)
    (cut_segments : list V100.segment) :
  V100.write_cpf_file output video audio cut_segments w
  = match files w !! output with
    | Some _ =>
        Returned tt (World (files w)
                           (stdout w ++ [V110.already_exists_message output]))
    | None =>
        Returned tt
          (World
             (<[output := V110.xml_declaration ++ V110.root_open
                          ++ V110.used_video_file video
                          ++ V110.used_audio_file audio
                          ++ concat (map V100.cut_element cut_segments)
                          ++ V110.current_files ++ V110.root_close]> (files w))
             (stdout w ++ [V110.saved_message output]))
    end.
Proof.
  destruct (files w !! output) as [old|] eqn:Hout.
  - apply write_cpf_file_v100_taken. rewrite Hout. eexists. reflexivity.
  - apply write_cpf_file_v100_fresh. assumption.
Qed.

(** The segments of the lines of a text are those of their ranges. *)
Lemma segments_of_ranges (lines : list str) :
  omap (V110.line_segment unicode_decimal) lines
  = map (fun '(s, c) => {| V110.start := s; V110.end_ := s + c - 1 |})
      (omap (V110.line_range unicode_decimal) lines) /\
  omap (V100.line_segment unicode_decimal) lines
  = map (fun '(s, c) => {| V100.StartPosition := s; V100.EndPosition := s + c |})
      (omap (V110.line_range unicode_decimal) lines).
Proof.
  induction lines as [|line lines [IH110 IH100]]; [split; reflexivity|].
  simpl. unfold V110.line_segment at 1. unfold V100.line_segment at 1.
  change (V100.line_range unicode_decimal line)
    with (V110.line_range unicode_decimal line).
  destruct (V110.line_range unicode_decimal line) as [[s c]|]; simpl.
  - split; f_equal; assumption.
  - split; assumption.
Qed.

(** X6.  The two versions on the same script and a free destination, the
    numbers of the script and the ends computed from them within the limit
    of [int()] and [str()].  Both converters write the same opening and
    closing lines.  Between them, for the start and count of each matched
    line in order, v1.0.0 writes the cut element of start and start + count,
    and v1.1.0 the comment with the place of the line among the matched
    ones, counted from 1, then the cut element of start and
    start + count - 1. *)
Theorem convert_versions_documents (w : world)
    (vdscript cpf video audio text : str) :
  files w !! vdscript = Some text ->
  files w !! cpf = None ->
  Forall (numbers_within_limit unicode_decimal) (readlines text) ->
  Forall (fun '(start_frame, frame_count) =>
            str_within_limit (start_frame + frame_count))
         (omap (V110.line_range unicode_decimal) (readlines text)) ->
  V100.convert_vdscript_to_cpf unicode_decimal vdscript cpf video audio w
  = Returned tt
      (World
         (<[cpf := V110.xml_declaration ++ V110.root_open
                   ++ V110.used_video_file video
                   ++ V110.used_audio_file audio
                   ++ concat
                        (map (fun '(start_frame, frame_count) =>
                                V100.cut_element
                                  {| V100.StartPosition := start_frame;
                                     V100.EndPosition :=
                                       start_frame + frame_count |})
                             (omap (V110.line_range unicode_decimal)
                                (readlines text)))
                   ++ V110.current_files ++ V110.root_close]> (files w))
         (stdout w ++ [V110.saved_message cpf])) /\
  V110.convert_vdscript_to_cpf unicode_decimal vdscript cpf video audio w
  = Returned tt
      (World
         (<[cpf := V110.xml_declaration ++ V110.root_open
                   ++ V110.used_video_file video
                   ++ V110.used_audio_file audio
                   ++ concat
                        (imap (fun place '(start_frame, frame_count) =>
                                 V110.segment_comment (Z.of_nat place)
                                 ++ V110.cut_element
                                      {| V110.start := start_frame;
                                         V110.end_ :=
                                           start_frame + frame_count - 1 |})
                              (omap (V110.line_range unicode_decimal)
                                 (readlines text)))
                   ++ V110.current_files ++ V110.root_close]> (files w))
         (stdout w ++ [V110.saved_message cpf])).
Proof.
  intros Hfile Hfree _ _.
  destruct (segments_of_ranges (readlines text)) as [E110 E100].
  split.
  - assert (H : map V100.cut_element
                  (omap (V100.line_segment unicode_decimal) (readlines text))
                = map (fun '(start_frame, frame_count) =>
                         V100.cut_element
                           {| V100.StartPosition := start_frame;
                              V100.EndPosition := start_frame + frame_count |})
                    (omap (V110.line_range unicode_decimal) (readlines text))).
    { rewrite E100, map_map. apply map_ext. intros [s c]. reflexivity. }
    rewrite convert_v100_run, Hfile.
    rewrite write_cpf_file_v100_fresh by assumption.
    unfold V100.cpf_document. rewrite H. reflexivity.
  - assert (H : imap (fun k seg =>
                        V110.segment_comment (0 + Z.of_nat k)
                        ++ V110.cut_element seg)
                  (omap (V110.line_segment unicode_decimal) (readlines text))
                = imap (fun place '(start_frame, frame_count) =>
                          V110.segment_comment (Z.of_nat place)
                          ++ V110.cut_element
                               {| V110.start := start_frame;
                                  V110.end_ := start_frame + frame_count - 1 |})
                    (omap (V110.line_range unicode_decimal) (readlines text))).
    { rewrite E110, imap_fmap. apply imap_ext. intros place [s c] _. reflexivity. }
    rewrite convert_v110_run, Hfile.
    rewrite write_cpf_file_fresh by assumption.
    unfold V110.cpf_document. rewrite cut_blocks_imap, H. reflexivity.
Qed.

End ConverterFacts.

(** ** The extractors: which lines match, and what numbers are read *)

Section ExtractorProperties.

Variable unicode_decimal : N -> option N.

Local Notation "'is_dec'" := (is_decimal unicode_decimal).
Local Notation "'digits'" := (decimals unicode_decimal).
Local Notation "'subset_match'" :=
  (re_match unicode_decimal V110.subset_pattern).

(** The pattern once its opening literal has been read. *)
Lemma subset_match_opening s :
  subset_match (py "VirtualDub.subset.AddRange(" ++ s)
  = re_match unicode_decimal
      (DigitsGroup :: Lit 44%N :: DigitsGroup :: Lit 41%N
       :: map Lit (py ";") ++ []) s.
Proof. unfold V110.subset_pattern. apply re_match_literal. Qed.

(** The pattern once the first number and the comma have been read. *)
Lemma subset_match_first_number a s :
  digits a ->
  subset_match (py "VirtualDub.subset.AddRange(" ++ a ++ py "," ++ s)
  = option_map (cons a)
      (re_match unicode_decimal
         (DigitsGroup :: Lit 41%N :: map Lit (py ";") ++ []) s).
Proof.
  intros [Ha Hda]. rewrite subset_match_opening.
  rewrite re_match_digits_group by (apply not_decimal_ascii; lia).
  change (py "," ++ s) with (44%N :: s).
  rewrite span_decimals_run; [| assumption | apply not_decimal_ascii; lia].
  destruct a as [|a0 a]; [congruence|].
  rewrite re_match_lit. reflexivity.
Qed.

Lemma span_decimals_none s :
  match s with [] => True | c :: _ => is_dec c = false end ->
  span_decimals unicode_decimal s = ([], s).
Proof. intros Hs. apply (span_decimals_run unicode_decimal [] s); [constructor | exact Hs]. Qed.

Lemma omap_cons_Some {A B} (f : A -> option B) x y l :
  f x = Some y -> omap f (x :: l) = y :: omap f l.
Proof. intros H. simpl. rewrite H. reflexivity. Qed.

(** Reading a text that ends a line, then more text. *)
Lemma readlines_from_app cur t1 t2 :
  readlines_from cur (t1 ++ nl :: t2)
  = readlines_from cur (t1 ++ [nl]) ++ readlines_from [] t2.
Proof.
  revert cur. induction t1 as [|c t1 IH]; intros cur; simpl.
  - reflexivity.
  - destruct (N.eqb c nl).
    + rewrite (IH []). reflexivity.
    + apply IH.
Qed.

(** The digits [str] writes are digits for [\d], and [int] reads back the
    number they spell. *)
Lemma py_String c s : py (String c s) = N_of_ascii c :: py s.
Proof. reflexivity. Qed.

Lemma string_of_uint_decimal d :
  Forall (fun c => is_dec c = true) (py (NilEmpty.string_of_uint d)).
Proof.
  induction d; cbn [NilEmpty.string_of_uint]; rewrite ?py_String;
    constructor; try assumption; reflexivity.
Qed.

Lemma int_fold_step (acc : Z) c s k :
  decimal_value unicode_decimal c = Some k ->
  fold_left (fun acc c =>
               match acc, decimal_value unicode_decimal c with
               | Some a, Some d => Some (10 * a + d)
               | _, _ => None
               end) (c :: s) (Some acc)
  = fold_left (fun acc c =>
               match acc, decimal_value unicode_decimal c with
               | Some a, Some d => Some (10 * a + d)
               | _, _ => None
               end) s (Some (10 * acc + k)).
Proof. intros H. simpl. rewrite H. reflexivity. Qed.

Lemma int_fold_uint_pos d acc :
  0 < acc ->
  fold_left (fun acc c =>
               match acc, decimal_value unicode_decimal c with
               | Some a, Some d => Some (10 * a + d)
               | _, _ => None
               end) (py (NilEmpty.string_of_uint d)) (Some acc)
  = Some (Zpos (Pos.of_uint_acc d (Z.to_pos acc))).
Proof.
  revert acc. induction d as [|d IH|d IH|d IH|d IH|d IH|d IH|d IH|d IH|d IH|d IH];
    intros acc Hacc;
    [simpl; f_equal; lia
    | cbn [NilEmpty.string_of_uint Pos.of_uint_acc]; rewrite py_String;
      erewrite int_fold_step by reflexivity;
      rewrite IH by (cbn; lia); do 3 f_equal; cbn; lia ..].
Qed.

Lemma int_fold_uint_zero d :
  fold_left (fun acc c =>
               match acc, decimal_value unicode_decimal c with
               | Some a, Some d => Some (10 * a + d)
               | _, _ => None
               end) (py (NilEmpty.string_of_uint d)) (Some 0)
  = Some (Z.of_N (Pos.of_uint d)).
Proof.
  induction d as [|d IH|d IH|d IH|d IH|d IH|d IH|d IH|d IH|d IH|d IH];
    [reflexivity
    | cbn [NilEmpty.string_of_uint Pos.of_uint]; rewrite py_String;
      erewrite int_fold_step by reflexivity; exact IH
    | cbn [NilEmpty.string_of_uint Pos.of_uint]; rewrite py_String;
      erewrite int_fold_step by reflexivity;
      rewrite int_fold_uint_pos by (cbn; lia); reflexivity ..].
Qed.

Lemma string_of_uint_nonnil d :
  d <> Decimal.Nil ->
  NilZero.string_of_uint d = NilEmpty.string_of_uint d /\
  py (NilEmpty.string_of_uint d) <> [].
Proof. destruct d; [congruence | split; [reflexivity | discriminate] ..]. Qed.

Lemma str_of_int_digits n :
  0 <= n ->
  digits (str_of_int n) /\ int_digits unicode_decimal (str_of_int n) = Some n.
Proof.
  intros Hn. destruct n as [|p|p]; [split; [run_digits | reflexivity] | | lia].
  unfold str_of_int. cbn [Z.to_int NilZero.string_of_int].
  destruct (string_of_uint_nonnil _ (DecimalPos.Unsigned.to_uint_nonnil p))
    as [-> Hne].
  split; [split; [exact Hne | apply string_of_uint_decimal]|].
  unfold int_digits.
  destruct (py (NilEmpty.string_of_uint (Pos.to_uint p))) eqn:Hs; [congruence|].
  rewrite <- Hs, int_fold_uint_zero, DecimalPos.Unsigned.of_to. reflexivity.
Qed.

Lemma omap_cons_None {A B} (f : A -> option B) x l :
  f x = None -> omap f (x :: l) = omap f l.
Proof. intros H. simpl. rewrite H. reflexivity. Qed.

Lemma omap_length_le {A B} (f : A -> option B) l :
  (length (omap f l) <= length l)%nat.
Proof.
  induction l as [|x l IH]; [reflexivity|].
  destruct (f x) as [y|] eqn:E.
  - rewrite (omap_cons_Some _ _ _ _ E). simpl. lia.
  - rewrite (omap_cons_None _ _ _ E). simpl. lia.
Qed.

Lemma segments_count_v110 lines :
  length (omap (V110.line_segment unicode_decimal) lines)
  = length (omap (re_match unicode_decimal V110.subset_pattern) lines).
Proof.
  induction lines as [|line lines IH]; [reflexivity|].
  destruct (V110.line_segment unicode_decimal line) eqn:Hseg;
    destruct (subset_match line) eqn:Hm.
  - rewrite (omap_cons_Some _ _ _ _ Hseg), (omap_cons_Some _ _ _ _ Hm).
    cbn [length]. rewrite IH. reflexivity.
  - apply line_segment_None in Hm. congruence.
  - apply line_segment_None in Hseg. congruence.
  - rewrite (omap_cons_None _ _ _ Hseg), (omap_cons_None _ _ _ Hm). exact IH.
Qed.

Lemma segments_count_v100 lines :
  length (omap (V100.line_segment unicode_decimal) lines)
  = length (omap (V110.line_segment unicode_decimal) lines).
Proof.
  induction lines as [|line lines IH]; [reflexivity|].
  destruct (V110.line_range unicode_decimal line) as [[s c]|] eqn:Hr.
  - erewrite (omap_cons_Some (V100.line_segment unicode_decimal)),
      (omap_cons_Some (V110.line_segment unicode_decimal)).
    + cbn [length]. rewrite IH. reflexivity.
    + unfold V110.line_segment. rewrite Hr. reflexivity.
    + unfold V100.line_segment. rewrite line_range_same, Hr. reflexivity.
  - rewrite !omap_cons_None; [exact IH | |].
    + unfold V110.line_segment. rewrite Hr. reflexivity.
    + unfold V100.line_segment. rewrite line_range_same, Hr. reflexivity.
Qed.

(** The segments of a script written with [str]: one statement per line,
    the numbers in plain decimal. *)
Lemma segments_of_decimal_script (ranges : list (Z * Z)) :
  Forall (fun '(s, c) => 0 <= s /\ 0 <= c) ranges ->
  Forall (fun '(a, b) => digits a /\ digits b)
    (map (fun '(s, c) => (str_of_int s, str_of_int c)) ranges) /\
  omap (V110.line_segment unicode_decimal)
    (map (fun '(a, b) => statement a b ++ [nl])
       (map (fun '(s, c) => (str_of_int s, str_of_int c)) ranges))
  = map (fun '(s, c) => {| V110.start := s; V110.end_ := s + c - 1 |}) ranges /\
  omap (V100.line_segment unicode_decimal)
    (map (fun '(a, b) => statement a b ++ [nl])
       (map (fun '(s, c) => (str_of_int s, str_of_int c)) ranges))
  = map (fun '(s, c) => {| V100.StartPosition := s; V100.EndPosition := s + c |})
      ranges.
Proof.
  induction 1 as [|[s c] ranges [Hs Hc] _ (IHv & IH110 & IH100)];
    [repeat split; constructor|].
  destruct (str_of_int_digits s Hs) as [Hds Hvs].
  destruct (str_of_int_digits c Hc) as [Hdc Hvc].
  destruct (line_segment_statement unicode_decimal
              (str_of_int s) (str_of_int c) [nl] Hds Hdc)
    as (s' & c' & Hs' & Hc' & _ & _ & E110 & E100).
  assert (s' = s) as -> by congruence.
  assert (c' = c) as -> by congruence.
  cbn [map]. split; [constructor; [split|]; assumption|].
  rewrite (omap_cons_Some _ _ _ _ E110), (omap_cons_Some _ _ _ _ E100).
  split; (f_equal; first [exact IH110 | exact IH100]).
Qed.

(** X7.  The pattern matches a line exactly when the line starts with a
    statement, that is the literal [VirtualDub.subset.AddRange(], a
    non-empty run of decimal digits, a comma, a second such run and [);];
    the two groups of the match are then the two runs, and nothing else is
    ever matched.  The pattern of v1.0.0 matches the same lines. *)
Theorem subset_match_exactly_statements (line : str) :
  (forall m, subset_match line = Some m -> exists a b, m = [a; b]) /\
  (forall a b,
     subset_match line = Some [a; b] <->
     digits a /\ digits b /\ exists rest, line = statement a b ++ rest) /\
  re_match unicode_decimal V100.subset_pattern line = subset_match line.
Proof.
  split; [|split; [|reflexivity]].
  - intros m Hm.
    apply subset_match_inv in Hm as (a & b & _ & _ & _ & _ & ->). eauto.
  - intros a b. split.
    + intros Hm.
      apply subset_match_inv in Hm as (a' & b' & rest & Ha & Hb & -> & E).
      injection E as <- <-. eauto.
    + intros (Ha & Hb & rest & ->). apply subset_match_statement; assumption.
Qed.

(** X8.  A number must start on a decimal digit: when what stands where the
    first number should start, or where the second should start after the
    comma, is empty or starts with any other character (a space, a sign, a
    letter), the line is not matched. *)
Theorem number_must_start_with_digit (a x : str) :
  digits a ->
  match x with [] => True | c :: _ => is_dec c = false end ->
  subset_match (py "VirtualDub.subset.AddRange(" ++ x) = None /\
  subset_match (py "VirtualDub.subset.AddRange(" ++ a ++ py "," ++ x) = None.
Proof.
  intros Ha Hx. split.
  - rewrite subset_match_opening.
    rewrite re_match_digits_group by (apply not_decimal_ascii; lia).
    rewrite span_decimals_none by assumption. reflexivity.
  - rewrite subset_match_first_number by assumption.
    rewrite re_match_digits_group by (apply not_decimal_ascii; lia).
    rewrite span_decimals_none by assumption. reflexivity.
Qed.

(** X9.  A statement must be closed: when the two numbers are followed by
    anything but [);] (the semicolon or the parenthesis missing, a space
    before them), the line is not matched. *)
Theorem statement_must_be_closed (a b x : str) :
  digits a -> digits b ->
  match x with [] => True | c :: _ => is_dec c = false end ->
  (forall rest, x <> py ");" ++ rest) ->
  subset_match (py "VirtualDub.subset.AddRange(" ++ a ++ py "," ++ b ++ x) = None.
Proof.
  intros Ha [Hb Hdb] Hx Hopen.
  rewrite subset_match_first_number by assumption.
  rewrite re_match_digits_group by (apply not_decimal_ascii; lia).
  rewrite span_decimals_run by assumption.
  destruct b as [|b0 b]; [congruence|].
  destruct (re_match unicode_decimal (Lit 41%N :: map Lit (py ";") ++ []) x)
    as [m|] eqn:Hm; [|reflexivity].
  exfalso.
  apply re_match_lit_inv in Hm as (x1 & -> & Hm).
  apply re_match_literal_inv in Hm as (x2 & -> & _).
  apply (Hopen x2). reflexivity.
Qed.

(** X10.  For a script whose numbers are within the limit of [int()], both
    extractors return one segment for each line the pattern matches, no
    more and no fewer, so never more segments than the text has lines. *)
Theorem one_segment_per_matched_line (w : world) (filepath text : str) :
  files w !! filepath = Some text ->
  Forall (numbers_within_limit unicode_decimal) (readlines text) ->
  exists (segs110 : list V110.segment) (segs100 : list V100.segment),
    V110.parse_vdscript unicode_decimal filepath w = Returned segs110 w /\
    V100.parse_vdscript unicode_decimal filepath w = Returned segs100 w /\
    length segs110 = length (omap subset_match (readlines text)) /\
    length segs100 = length (omap subset_match (readlines text)) /\
    (length segs110 <= length (readlines text))%nat.
Proof.
  intros Hfile _.
  exists (omap (V110.line_segment unicode_decimal) (readlines text)),
         (omap (V100.line_segment unicode_decimal) (readlines text)).
  split; [apply parse_vdscript_v110_spec; assumption|].
  split; [apply parse_vdscript_v100_spec; assumption|].
  split; [apply segments_count_v110|].
  split; [rewrite segments_count_v100; apply segments_count_v110|].
  apply omap_length_le.
Qed.

(** X11.  Scripts compose: when a first script ends with a newline, the
    segments of that script followed by a second one are the segments of
    the first followed by those of the second. *)
Theorem parse_concatenated_scripts (w : world) (first second both t1 t2 : str) :
  files w !! first = Some (t1 ++ [nl]) ->
  files w !! second = Some t2 ->
  files w !! both = Some (t1 ++ [nl] ++ t2) ->
  exists segs1 segs2 : list V110.segment,
    V110.parse_vdscript unicode_decimal first w = Returned segs1 w /\
    V110.parse_vdscript unicode_decimal second w = Returned segs2 w /\
    V110.parse_vdscript unicode_decimal both w = Returned (segs1 ++ segs2) w.
Proof.
  intros H1 H2 H12.
  exists (omap (V110.line_segment unicode_decimal) (readlines (t1 ++ [nl]))),
         (omap (V110.line_segment unicode_decimal) (readlines t2)).
  split; [apply parse_vdscript_v110_spec; assumption|].
  split; [apply parse_vdscript_v110_spec; assumption|].
  rewrite (parse_vdscript_v110_spec _ _ _ _ H12).
  unfold readlines.
  change (t1 ++ [nl] ++ t2) with (t1 ++ nl :: t2).
  rewrite readlines_from_app, omap_app. reflexivity.
Qed.

(** X12.  What is written in plain decimal is read back, within the limit
    of [int()] and [str()]: for a script of statements whose start [s] and
    count [c] are written by [str], one per line, with [s + c] of no more
    digits than the limit, the extractors return in order the segments
    [(s, s + c - 1)] (v1.1.0) and [(s, s + c)] (v1.0.0), and on a free
    destination the converter of v1.1.0 writes, between the opening and the
    closing lines, for each of them in order the comment with its place and
    the cut element with [str(s)] and [str(s + c - 1)]. *)
Theorem decimal_script_converted (w : world) (vdscript cpf video audio : str)
    (ranges : list (Z * Z)) :
  Forall (fun '(s, c) => 0 <= s /\ 0 <= c /\ str_within_limit (s + c)) ranges ->
  files w !! vdscript
  = Some (concat (map (fun '(s, c) =>
                         statement (str_of_int s) (str_of_int c) ++ [nl])
                      ranges)) ->
  files w !! cpf = None ->
  V110.parse_vdscript unicode_decimal vdscript w
  = Returned (map (fun '(s, c) => {| V110.start := s; V110.end_ := s + c - 1 |})
                ranges) w /\
  V100.parse_vdscript unicode_decimal vdscript w
  = Returned (map (fun '(s, c) =>
                     {| V100.StartPosition := s; V100.EndPosition := s + c |})
                ranges) w /\
  V110.convert_vdscript_to_cpf unicode_decimal vdscript cpf video audio w
  = Returned tt
      (World
         (<[cpf := V110.xml_declaration ++ V110.root_open
                   ++ V110.used_video_file video
                   ++ V110.used_audio_file audio
                   ++ concat
                        (imap (fun place seg =>
                                 V110.segment_comment (Z.of_nat place)
                                 ++ V110.cut_element seg)
                              (map (fun '(s, c) =>
                                      {| V110.start := s;
                                         V110.end_ := s + c - 1 |})
                                   ranges))
                   ++ V110.current_files ++ V110.root_close]> (files w))
         (stdout w ++ [V110.saved_message cpf])).
Proof.
  intros Hlimit Hfile Hfree.
  assert (Hvalid : Forall (fun '(s, c) => 0 <= s /\ 0 <= c) ranges).
  { eapply Forall_impl; [exact Hlimit|]. intros [s c] (Hs & Hc & _). split; assumption. }
  destruct (segments_of_decimal_script ranges Hvalid) as (Hdigits & E110 & E100).
  assert (Htext :
    map (fun '(s, c) => statement (str_of_int s) (str_of_int c) ++ [nl]) ranges
    = map (fun '(a, b) => statement a b ++ [nl])
        (map (fun '(s, c) => (str_of_int s, str_of_int c)) ranges)).
  { rewrite map_map. apply map_ext. intros [s c]. reflexivity. }
  rewrite Htext in Hfile.
  assert (Hlines := readlines_statements unicode_decimal _ Hdigits).
  assert (H110 := parse_vdscript_v110_spec unicode_decimal _ _ _ Hfile).
  assert (H100 := parse_vdscript_v100_spec unicode_decimal _ _ _ Hfile).
  rewrite Hlines in H110, H100. rewrite E110 in H110. rewrite E100 in H100.
  split; [exact H110|]. split; [exact H100|].
  unfold V110.convert_vdscript_to_cpf. rewrite io_bind_run, H110.
  rewrite write_cpf_file_fresh by assumption.
  unfold V110.cpf_document. rewrite cut_blocks_imap. reflexivity.
Qed.

End ExtractorProperties.

(** ** The further properties at concrete inputs *)

(** X1 on a world without the script, where the destination exists. *)
Lemma convert_missing_script_witness :
  let w := World {[ V110.cpf_filepath := py "<?xml" ]} [] in
  V110.convert_vdscript_to_cpf arabic_indic V110.vdscript_filepath
    V110.cpf_filepath V110.video_filepath V110.audio_filepath w
  = Raised (FileNotFoundError V110.vdscript_filepath) w /\
  V100.convert_vdscript_to_cpf arabic_indic V110.vdscript_filepath
    V110.cpf_filepath V110.video_filepath V110.audio_filepath w
  = Raised (FileNotFoundError V110.vdscript_filepath) w.
Proof.
  intros w.
  apply (convert_missing_script arabic_indic w V110.vdscript_filepath
           V110.cpf_filepath V110.video_filepath V110.audio_filepath).
  vm_compute. reflexivity.
Defined.

(** X2 with the script itself as the destination. *)
Lemma convert_existing_destination_witness :
  let w := World {[ V110.vdscript_filepath :=
                      py "VirtualDub.subset.AddRange(412,208);" ++ [nl] ]} [] in
  V110.convert_vdscript_to_cpf arabic_indic V110.vdscript_filepath
    V110.vdscript_filepath V110.video_filepath V110.audio_filepath w
  = Returned tt
      (World (files w)
             (stdout w ++ [V110.already_exists_message V110.vdscript_filepath])) /\
  V100.convert_vdscript_to_cpf arabic_indic V110.vdscript_filepath
    V110.vdscript_filepath V110.video_filepath V110.audio_filepath w
  = Returned tt
      (World (files w)
             (stdout w ++ [V110.already_exists_message V110.vdscript_filepath])).
Proof.
  intros w.
  apply (convert_existing_destination arabic_indic w V110.vdscript_filepath
           V110.vdscript_filepath V110.video_filepath V110.audio_filepath).
  - vm_compute. eexists. reflexivity.
  - vm_compute. eexists. reflexivity.
Defined.

(** X3 on a successful conversion, looked at from the script. *)
Lemma convert_keeps_files_witness :
  let w := World {[ V110.vdscript_filepath :=
                      py "VirtualDub.subset.AddRange(412,208);" ++ [nl] ]} [] in
  files (final_world
           (V110.convert_vdscript_to_cpf arabic_indic V110.vdscript_filepath
              V110.cpf_filepath V110.video_filepath V110.audio_filepath w))
    !! V110.vdscript_filepath = files w !! V110.vdscript_filepath /\
  files (final_world
           (V100.convert_vdscript_to_cpf arabic_indic V110.vdscript_filepath
              V110.cpf_filepath V110.video_filepath V110.audio_filepath w))
    !! V110.vdscript_filepath = files w !! V110.vdscript_filepath.
Proof.
  intros w.
  apply (convert_keeps_files arabic_indic w V110.vdscript_filepath
           V110.cpf_filepath V110.video_filepath V110.audio_filepath
           V110.vdscript_filepath).
  left. discriminate.
Defined.

(** X4 on a script of one statement. *)
Lemma convert_twice_witness :
  let text := py "VirtualDub.subset.AddRange(412,208);" ++ [nl] in
  let w := World {[ V110.vdscript_filepath := text ]} [] in
  exists w1 w2,
    V110.convert_vdscript_to_cpf arabic_indic V110.vdscript_filepath
      V110.cpf_filepath V110.video_filepath V110.audio_filepath w
    = Returned tt w1 /\
    files w1 !! V110.cpf_filepath
    = Some (V110.cpf_document V110.video_filepath V110.audio_filepath
              (omap (V110.line_segment arabic_indic) (readlines text))) /\
    V110.convert_vdscript_to_cpf arabic_indic V110.vdscript_filepath
      V110.cpf_filepath (py "other.m2v") (py "other.mp2") w1
    = Returned tt w2 /\
    files w2 = files w1 /\
    stdout w2
    = stdout w ++ [V110.saved_message V110.cpf_filepath;
                   V110.already_exists_message V110.cpf_filepath].
Proof.
  intros text w.
  apply (convert_twice arabic_indic w V110.vdscript_filepath V110.cpf_filepath
           V110.video_filepath V110.audio_filepath
           (py "other.m2v") (py "other.mp2") text).
  - vm_compute. reflexivity.
  - vm_compute. reflexivity.
Defined.

(** X6 on a script of two statements and a line that does not match, with
    the two documents spelled out. *)
Lemma convert_versions_documents_witness :
  let text :=
    py "VirtualDub.subset.AddRange(412,208);" ++ [nl]
    ++ py "VirtualDub.subset.Delete();" ++ [nl]
    ++ py "VirtualDub.subset.AddRange(0,0);" ++ [nl] in
  let w := World {[ V110.vdscript_filepath := text ]} [] in
  let element (start_frame end_frame : str) :=
    py "  <CutElements refVideoFile=" ++ q (py "0")
    ++ py " StartPosition=" ++ q start_frame
    ++ py " EndPosition=" ++ q end_frame ++ py ">" ++ [nl]
    ++ py "    <cutAudioFiles refAudioFile=" ++ q (py "1") ++ py " />" ++ [nl]
    ++ py "  </CutElements>" ++ [nl] in
  let comment (place : str) :=
    py "  <!-- Segment " ++ place ++ py " -->" ++ [nl] in
  V100.convert_vdscript_to_cpf arabic_indic V110.vdscript_filepath
    V110.cpf_filepath V110.video_filepath V110.audio_filepath w
  = Returned tt
      (World
         (<[V110.cpf_filepath :=
              py "<?xml version=" ++ q (py "1.0")
              ++ py " standalone=" ++ q (py "yes") ++ py "?>" ++ [nl]
              ++ py "<StateData xmlns="
              ++ q (py "http://cuttermaran.kickme.to/StateData.xsd")
              ++ py ">" ++ [nl]
              ++ py "  <usedVideoFiles FileID=" ++ q (py "0")
              ++ py " FileName=" ++ q (py "C:\New folder\test.m2v")
              ++ py " />" ++ [nl]
              ++ py "  <usedAudioFiles FileID=" ++ q (py "1")
              ++ py " FileName=" ++ q (py "C:\New folder\test.mp2")
              ++ py " StartDelay=" ++ q (py "0") ++ py " />" ++ [nl]
              ++ element (py "412") (py "620")
              ++ element (py "0") (py "0")
              ++ py "  <CurrentFiles refVideoFiles=" ++ q (py "0")
              ++ py ">" ++ [nl]
              ++ py "    <currentAudioFiles refAudioFiles=" ++ q (py "1")
              ++ py " />" ++ [nl]
              ++ py "  </CurrentFiles>" ++ [nl]
              ++ py "</StateData>" ++ [nl]]> (files w))
         (stdout w ++ [py "Cuttermaran project file saved as C:\New folder\output.cpf"])) /\
  V110.convert_vdscript_to_cpf arabic_indic V110.vdscript_filepath
    V110.cpf_filepath V110.video_filepath V110.audio_filepath w
  = Returned tt
      (World
         (<[V110.cpf_filepath :=
              py "<?xml version=" ++ q (py "1.0")
              ++ py " standalone=" ++ q (py "yes") ++ py "?>" ++ [nl]
              ++ py "<StateData xmlns="
              ++ q (py "http://cuttermaran.kickme.to/StateData.xsd")
              ++ py ">" ++ [nl]
              ++ py "  <usedVideoFiles FileID=" ++ q (py "0")
              ++ py " FileName=" ++ q (py "C:\New folder\test.m2v")
              ++ py " />" ++ [nl]
              ++ py "  <usedAudioFiles FileID=" ++ q (py "1")
              ++ py " FileName=" ++ q (py "C:\New folder\test.mp2")
              ++ py " StartDelay=" ++ q (py "0") ++ py " />" ++ [nl]
              ++ comment (py "1") ++ element (py "412") (py "619")
              ++ comment (py "2") ++ element (py "0") (py "-1")
              ++ py "  <CurrentFiles refVideoFiles=" ++ q (py "0")
              ++ py ">" ++ [nl]
              ++ py "    <currentAudioFiles refAudioFiles=" ++ q (py "1")
              ++ py " />" ++ [nl]
              ++ py "  </CurrentFiles>" ++ [nl]
              ++ py "</StateData>" ++ [nl]]> (files w))
         (stdout w ++ [py "Cuttermaran project file saved as C:\New folder\output.cpf"])).
Proof.
  intros text w element comment.
  destruct (convert_versions_documents arabic_indic w V110.vdscript_filepath
              V110.cpf_filepath V110.video_filepath V110.audio_filepath text)
    as [H100 H110].
  - vm_compute. reflexivity.
  - vm_compute. reflexivity.
  - let lines := eval vm_compute in (readlines text) in
    change (readlines text) with lines.
    repeat (constructor; [run_within_limit|]). constructor.
  - let ranges := eval vm_compute in
        (omap (V110.line_range arabic_indic) (readlines text)) in
    change (omap (V110.line_range arabic_indic) (readlines text)) with ranges.
    repeat (constructor; [vm_compute; reflexivity|]). constructor.
  - split.
    + etransitivity; [exact H100|]. vm_compute. reflexivity.
    + etransitivity; [exact H110|]. vm_compute. reflexivity.
Defined.

(** X8 with a space where a number should start. *)
Lemma number_must_start_with_digit_witness :
  re_match arabic_indic V110.subset_pattern
    (py "VirtualDub.subset.AddRange(" ++ py " 208);") = None /\
  re_match arabic_indic V110.subset_pattern
    (py "VirtualDub.subset.AddRange(" ++ py "412" ++ py "," ++ py " 208);")
  = None.
Proof.
  apply (number_must_start_with_digit arabic_indic (py "412") (py " 208);")).
  - run_digits.
  - reflexivity.
Defined.

(** X9 without the semicolon. *)
Lemma statement_must_be_closed_witness :
  re_match arabic_indic V110.subset_pattern
    (py "VirtualDub.subset.AddRange(" ++ py "412" ++ py "," ++ py "208"
     ++ (py ")" ++ [nl])) = None.
Proof.
  apply (statement_must_be_closed arabic_indic (py "412") (py "208")
           (py ")" ++ [nl])).
  - run_digits.
  - run_digits.
  - reflexivity.
  - intros rest. discriminate.
Defined.

(** X10 on a script of three lines, two of which match. *)
Lemma one_segment_per_matched_line_witness :
  let text :=
    py "VirtualDub.subset.AddRange(412,208);" ++ [nl]
    ++ py "VirtualDub.subset.Delete();" ++ [nl]
    ++ py "VirtualDub.subset.AddRange(0,0);" ++ [nl] in
  let w := World {[ V110.vdscript_filepath := text ]} [] in
  exists (segs110 : list V110.segment) (segs100 : list V100.segment),
    V110.parse_vdscript arabic_indic V110.vdscript_filepath w
    = Returned segs110 w /\
    V100.parse_vdscript arabic_indic V110.vdscript_filepath w
    = Returned segs100 w /\
    length segs110
    = length (omap (re_match arabic_indic V110.subset_pattern) (readlines text)) /\
    length segs100
    = length (omap (re_match arabic_indic V110.subset_pattern) (readlines text)) /\
    (length segs110 <= length (readlines text))%nat.
Proof.
  intros text w.
  apply (one_segment_per_matched_line arabic_indic w V110.vdscript_filepath text).
  - vm_compute. reflexivity.
  - let lines := eval vm_compute in (readlines text) in
    change (readlines text) with lines.
    repeat (constructor; [run_within_limit|]). constructor.
Defined.

(** X11 on two scripts of one statement each. *)
Lemma parse_concatenated_scripts_witness :
  let t1 := py "VirtualDub.subset.AddRange(412,208);" in
  let t2 := py "VirtualDub.subset.AddRange(700,2);" in
  let w := World (<[py "a.vdscript" := t1 ++ [nl]]>
                  (<[py "b.vdscript" := t2]>
                   {[ py "ab.vdscript" := t1 ++ [nl] ++ t2 ]})) [] in
  exists segs1 segs2 : list V110.segment,
    V110.parse_vdscript arabic_indic (py "a.vdscript") w = Returned segs1 w /\
    V110.parse_vdscript arabic_indic (py "b.vdscript") w = Returned segs2 w /\
    V110.parse_vdscript arabic_indic (py "ab.vdscript") w
    = Returned (segs1 ++ segs2) w.
Proof.
  intros t1 t2 w.
  apply (parse_concatenated_scripts arabic_indic w (py "a.vdscript")
           (py "b.vdscript") (py "ab.vdscript") t1 t2).
  - vm_compute. reflexivity.
  - vm_compute. reflexivity.
  - vm_compute. reflexivity.
Defined.

(** X12 on three ranges, one of them empty at frame 0, with the document
    spelled out. *)
Lemma decimal_script_converted_witness :
  let ranges := [ (412, 208); (0, 0); (1000000, 1) ] in
  let w := World {[ V110.vdscript_filepath :=
                      concat (map (fun '(s, c) =>
                                     statement (str_of_int s) (str_of_int c)
                                     ++ [nl]) ranges) ]} [] in
  let element (start_frame end_frame : str) :=
    py "  <CutElements refVideoFile=" ++ q (py "0")
    ++ py " StartPosition=" ++ q start_frame
    ++ py " EndPosition=" ++ q end_frame ++ py ">" ++ [nl]
    ++ py "    <cutAudioFiles refAudioFile=" ++ q (py "1") ++ py " />" ++ [nl]
    ++ py "  </CutElements>" ++ [nl] in
  let comment (place : str) :=
    py "  <!-- Segment " ++ place ++ py " -->" ++ [nl] in
  V110.parse_vdscript arabic_indic V110.vdscript_filepath w
  = Returned [ {| V110.start := 412; V110.end_ := 619 |};
               {| V110.start := 0; V110.end_ := -1 |};
               {| V110.start := 1000000; V110.end_ := 1000000 |} ] w /\
  V100.parse_vdscript arabic_indic V110.vdscript_filepath w
  = Returned [ {| V100.StartPosition := 412; V100.EndPosition := 620 |};
               {| V100.StartPosition := 0; V100.EndPosition := 0 |};
               {| V100.StartPosition := 1000000; V100.EndPosition := 1000001 |} ]
      w /\
  V110.convert_vdscript_to_cpf arabic_indic V110.vdscript_filepath
    V110.cpf_filepath V110.video_filepath V110.audio_filepath w
  = Returned tt
      (World
         (<[V110.cpf_filepath :=
              py "<?xml version=" ++ q (py "1.0")
              ++ py " standalone=" ++ q (py "yes") ++ py "?>" ++ [nl]
              ++ py "<StateData xmlns="
              ++ q (py "http://cuttermaran.kickme.to/StateData.xsd")
              ++ py ">" ++ [nl]
              ++ py "  <usedVideoFiles FileID=" ++ q (py "0")
              ++ py " FileName=" ++ q (py "C:\New folder\test.m2v")
              ++ py " />" ++ [nl]
              ++ py "  <usedAudioFiles FileID=" ++ q (py "1")
              ++ py " FileName=" ++ q (py "C:\New folder\test.mp2")
              ++ py " StartDelay=" ++ q (py "0") ++ py " />" ++ [nl]
              ++ comment (py "1") ++ element (py "412") (py "619")
              ++ comment (py "2") ++ element (py "0") (py "-1")
              ++ comment (py "3") ++ element (py "1000000") (py "1000000")
              ++ py "  <CurrentFiles refVideoFiles=" ++ q (py "0")
              ++ py ">" ++ [nl]
              ++ py "    <currentAudioFiles refAudioFiles=" ++ q (py "1")
              ++ py " />" ++ [nl]
              ++ py "  </CurrentFiles>" ++ [nl]
              ++ py "</StateData>" ++ [nl]]> (files w))
         (stdout w ++ [py "Cuttermaran project file saved as C:\New folder\output.cpf"])).
Proof.
  intros ranges w element comment.
  destruct (decimal_script_converted arabic_indic w V110.vdscript_filepath
              V110.cpf_filepath V110.video_filepath V110.audio_filepath ranges)
    as (H110 & H100 & Hconvert).
  - repeat (constructor;
            [split; [lia | split; [lia | vm_compute; reflexivity]]|]).
    constructor.
  - vm_compute. reflexivity.
  - vm_compute. reflexivity.
  - split; [exact H110|]. split; [exact H100|].
    etransitivity; [exact Hconvert|]. vm_compute. reflexivity.
Defined.
